(** * BME680 / BSEC sensor reader: platform layer of [src/bsec/reader.c]

    The file embeds the hooks that [main] hands to [bsec_iot_init] and
    [bsec_iot_loop]: [bus_write], [bus_read], [sleeper], [get_timestamp_us],
    [output_ready], [output_header], [state_load] and [state_save].

    Every hook talks to the operating system.  Each one is written as a
    function from the state of the part of the system it touches (the I2C
    character device, the system clock, the working directory, the standard
    streams) to an [outcome]: the call returns to its caller, the process
    ends through [exit], or the call runs into behaviour that C leaves
    undefined. *)

From Stdlib Require Import ZArith Lia Ascii String.
From stdpp Require Import base list strings.

Local Open Scope Z_scope.

(** ** Outcomes of a call *)

(** The ways a hook of [reader.c] steps outside defined behaviour. *)
Inductive fault : Set :=
| StoreOutOfBounds (i : nat)   (* store at index [i], past the end of the object *)
| LoadOutOfBounds (i : nat)    (* load at index [i], past the end of the object *)
| NullStream                   (* [fclose] called on a null [FILE*] *)
| SignedOverflow.              (* signed arithmetic left the range of its type *)

Inductive outcome (W A : Type) : Type :=
| Returned (a : A) (w : W)     (* control is back in the caller *)
| Exited (status : Z) (w : W)  (* [exit(status)]: the process is gone *)
| Undefined (f : fault).

Arguments Returned {W A} a w.
Arguments Exited {W A} status w.
Arguments Undefined {W A} f.

Definition prog (W A : Type) : Type := W -> outcome W A.

Definition ret {W A} (a : A) : prog W A := fun w => Returned a w.

Definition bind {W A B} (c : prog W A) (k : A -> prog W B) : prog W B :=
  fun w =>
    match c w with
    | Returned a w' => k a w'
    | Exited s w' => Exited s w'
    | Undefined f => Undefined f
    end.

Definition exit {W A} (status : Z) : prog W A := fun w => Exited status w.

Definition crash {W A} (f : fault) : prog W A := fun _ => Undefined f.

Definition modify {W} (f : W -> W) : prog W unit := fun w => Returned tt (f w).

Notation "'do' x <- c ; k" := (bind c (fun x => k))
  (at level 10, x name, c at level 100, k at level 200).
Notation "'run' c ; k" := (bind c (fun _ => k))
  (at level 10, c at level 100, k at level 200).

Definition returns {W A} (o : outcome W A) : bool :=
  match o with Returned _ _ => true | _ => false end.

(** ** The I2C bus *)

(** What the device file [/dev/i2c-1] has been asked to do, in order. *)
Inductive bus_event : Type :=
| EvWrite (frame : list Byte.byte) (moved : Z)
    (* [write(g_i2cFid, frame, |frame|)] came back with [moved] *)
| EvRead (count : nat) (moved : Z) (data : list Byte.byte).
    (* [read(g_i2cFid, _, count)] came back with [moved], delivering [data] *)

(** The open device.  What the kernel will answer is not decided by the
    program: the answers to the coming [write] and [read] calls are kept as
    two scripts.  [None] is the error return [-1]; [Some k] on a write is the
    number of bytes the adapter took; [Some d] on a read is the bytes the
    adapter delivered.  A script that has run dry answers [-1]. *)
Record bus : Type := mkBus {
  tx_script : list (option nat);
  rx_script : list (option (list Byte.byte));
  bus_log : list bus_event;
  bus_stderr : list string
}.

Definition after_write (frame : list Byte.byte) (moved : Z) (b : bus) : bus :=
  mkBus (tail (tx_script b)) (rx_script b)
        (bus_log b ++ [EvWrite frame moved]) (bus_stderr b).

Definition after_read (count : nat) (moved : Z) (data : list Byte.byte)
    (b : bus) : bus :=
  mkBus (tx_script b) (tail (rx_script b))
        (bus_log b ++ [EvRead count moved data]) (bus_stderr b).

Definition after_perror (tag : string) (b : bus) : bus :=
  mkBus (tx_script b) (rx_script b) (bus_log b) (bus_stderr b ++ [tag]).

(** [write(g_i2cFid, frame, |frame|)]. *)
Definition sys_write (frame : list Byte.byte) : prog bus Z :=
  fun b =>
    let moved :=
      match tx_script b with
      | Some k :: _ => Z.of_nat (k `min` length frame)
      | _ => -1
      end in
    Returned moved (after_write frame moved b).

(** [read(g_i2cFid, buf, count)]: the bytes delivered land at the start of
    [buf], the rest of [buf] keeps its contents. *)
Definition sys_read (buf : list Byte.byte) (count : nat)
  : prog bus (Z * list Byte.byte) :=
  fun b =>
    match rx_script b with
    | Some d :: _ =>
        let data := take count d in
        if decide (length data <= length buf)%nat
        then Returned (Z.of_nat (length data), data ++ drop (length data) buf)
                      (after_read count (Z.of_nat (length data)) data b)
        else Undefined (StoreOutOfBounds (length buf))
    | _ => Returned (-1, buf) (after_read count (-1) [] b)
    end.

(** [perror(tag)] on the bus side; the text of [errno] is not modelled. *)
Definition bus_perror (tag : string) : prog bus unit :=
  modify (after_perror tag).

(** What C3 asks of a call: it comes back to its caller with a result
    other than zero. *)
Definition reports_transfer_incomplete (o : outcome bus Z) : Prop :=
  exists rslt b', o = Returned rslt b' /\ rslt <> 0.

(** A local array whose cells start out indeterminate. *)
Abbreviation cells := (list (option Byte.byte)).

Definition store_cell (a : cells) (i : nat) (v : Byte.byte) : fault + cells :=
  if decide (i < length a)%nat then inr (<[i := Some v]> a)
  else inl (StoreOutOfBounds i).

(** The first [n] cells, as handed to [write]. *)
Fixpoint load_cells (a : cells) (n : nat) {struct n} : option (list Byte.byte) :=
  match n with
  | O => Some []
  | S n' =>
      match a with
      | Some v :: a' =>
          match load_cells a' n' with
          | Some vs => Some (v :: vs)
          | None => None
          end
      | _ => None
      end
  end.

(** [for (int i=1; i<data_len+1; i++) reg[i] = reg_data_ptr[i-1];]
    with [todo] iterations still to run and the counter at [i]. *)
Fixpoint bus_write_copy (todo i : nat) (reg : cells)
    (reg_data_ptr : list Byte.byte) {struct todo} : fault + cells :=
  match todo with
  | O => inr reg
  | S todo' =>
      match reg_data_ptr !! (i - 1)%nat with
      | None => inl (LoadOutOfBounds (i - 1))
      | Some v =>
          match store_cell reg i v with
          | inl f => inl f
          | inr reg' => bus_write_copy todo' (S i) reg' reg_data_ptr
          end
      end
  end.

Definition lift_fault {W A} (r : fault + A) : prog W A :=
  match r with inl f => crash f | inr a => ret a end.

Definition lift_load {W} (n : nat) (r : option (list Byte.byte))
  : prog W (list Byte.byte) :=
  match r with None => crash (LoadOutOfBounds n) | Some vs => ret vs end.

(** [bus_write]: [reg_data_ptr] is the object the pointer points into, from
    that pointer on; [data_len] is a [uint16_t], so [data_len+1] is computed
    in [int] without wrap-around. *)
Definition bus_write (dev_addr reg_addr : Byte.byte)
    (reg_data_ptr : list Byte.byte) (data_len : nat) : prog bus Z :=
  let rslt := 0 in
  do reg <- lift_fault (store_cell (replicate 16 None) 0 reg_addr);
  do reg <- lift_fault (bus_write_copy data_len 1 reg reg_data_ptr);
  do frame <- lift_load (data_len + 1) (load_cells reg (data_len + 1));
  do moved <- sys_write frame;
  if decide (moved <> Z.of_nat data_len + 1)
  then run bus_perror "user_i2c_write"; exit 1
  else ret rslt.

(** [bus_read]: both transfers are always issued; [rslt] only remembers
    whether one of them came back with an unexpected count. *)
Definition bus_read (dev_addr reg_addr : Byte.byte)
    (reg_data_ptr : list Byte.byte) (data_len : nat)
  : prog bus (Z * list Byte.byte) :=
  let rslt := 0 in
  do reg <- lift_fault (store_cell (replicate 1 None) 0 reg_addr);
  do frame <- lift_load 1 (load_cells reg 1);
  do moved <- sys_write frame;
  do rslt <- (if decide (moved <> 1)
              then run bus_perror "user_i2c_read_reg"; ret 1
              else ret rslt);
  do got <- sys_read reg_data_ptr data_len;
  do rslt <- (if decide (got.1 <> Z.of_nat data_len)
              then run bus_perror "user_i2c_read_data"; ret 1
              else ret rslt);
  ret (rslt, got.2).

(** ** The delay primitive *)

(** [usleep] takes a [useconds_t], an unsigned 32-bit count of microseconds.
    The state is the list of the delays asked for so far. *)
Definition usleep (usec : Z) : prog (list Z) unit :=
  modify (fun asked => asked ++ [usec]).

(** [t_ms * 1000] is a product of a [uint32_t] and an [int] constant: it is
    computed in [unsigned int], modulo 2^32. *)
Definition sleeper (t_ms : Z) : prog (list Z) unit :=
  usleep ((t_ms * 1000) mod 2 ^ 32).

(** ** The clock *)

Record timeval : Type := mkTimeval { tv_sec : Z; tv_usec : Z }.

(** [gettimeofday] reads the wall clock, which the administrator or a time
    daemon may set at any moment: the program has no say in the sequence of
    readings.  [wall n] is what the [n]-th reading of this process finds. *)
Record clock : Type := mkClock { wall : nat -> timeval; reads : nat }.

Definition gettimeofday : prog clock timeval :=
  fun c => Returned (wall c (reads c)) (mkClock (wall c) (S (reads c))).

(** Arithmetic in [long long]: leaving the range is undefined. *)
Definition int64 (z : Z) : fault + Z :=
  if decide (- 2 ^ 63 <= z < 2 ^ 63) then inr z else inl SignedOverflow.

(** The return value of [gettimeofday] is ignored by the code. *)
Definition get_timestamp_us : prog clock Z :=
  do tv <- gettimeofday;
  do scaled <- lift_fault (int64 (tv_sec tv * 1000000));
  do system_current_time <- lift_fault (int64 (scaled + tv_usec tv));
  ret system_current_time.

(** ** The output stream *)

(** Floating-point arguments are followed as the expressions the code builds
    from its inputs; rounding is not modelled.  A [float] input is given by
    its 32 bits. *)
Inductive cfloat : Type :=
| FBits (bits : Z)
| FConst (literal : string)
| FDiv (a b : cfloat).

Inductive cdouble : Type :=
| DOfInt64 (z : Z)          (* conversion of an [int64_t] *)
| DOfFloat (f : cfloat)     (* promotion of a [float] passed to [printf] *)
| DConst (literal : string)
| DDiv (a b : cdouble).

Inductive carg : Type :=
| AInt (z : Z)
| ADouble (d : cdouble).

Record printf_call : Type := mkPrintf { format : string; args : list carg }.

Definition printf (fmt : string) (a : list carg) : prog (list printf_call) unit :=
  modify (fun out => out ++ [mkPrintf fmt a]).

Definition nl : string := String (Ascii.ascii_of_nat 10) EmptyString.

(** [debug] tells whether the file was compiled with [DEBUG] defined. *)
Definition output_ready (debug : bool)
    (timestamp : Z) (iaq : Z) (iaq_accuracy : Z) (temperature humidity : Z)
    (pressure raw_temperature raw_humidity gas : Z) (bsec_status : Z)
    (static_iaq co2_equivalent breath_voc_equivalent : Z)
  : prog (list printf_call) unit :=
  let seconds := ADouble (DDiv (DOfInt64 timestamp) (DConst "1000000000.0d")) in
  let t := ADouble (DOfFloat (FBits temperature)) in
  let p := ADouble (DOfFloat (FDiv (FBits pressure) (FConst "100.0f"))) in
  let rh := ADouble (DOfFloat (FBits humidity)) in
  let g := ADouble (DOfFloat (FBits gas)) in
  let i := ADouble (DOfFloat (FBits iaq)) in
  run (if debug
       then run printf "[%.3lf] " [seconds];
            run printf "T: %.1f°C, P: %.1f hPa, rH: %.1f%%, " [t; p; rh];
            printf "G: %.0f Ω, IAQ: %.1f" [g; i]
       else run printf "%.3lf|" [seconds];
            run printf "%.1f|%.1f|%.1f%%|" [t; p; rh];
            printf "%.0f|%.1f" [g; i]);
  printf nl [].

Definition output_header : prog (list printf_call) unit :=
  printf ("Timestamp|Temperature|Pressure|RelativeHumidity|GasRawReading|IAQ" +:+ nl) [].

(** The number of conversion specifications of a format ([%%] is a literal
    percent sign). *)
Fixpoint conversions (fmt : string) : nat :=
  match fmt with
  | EmptyString => 0
  | String "%"%char (String "%"%char rest) => conversions rest
  | String "%"%char rest => S (conversions rest)
  | String _ rest => conversions rest
  end.

(** The values handed to [printf] by a run of calls, in order. *)
Definition printed (calls : list printf_call) : list carg :=
  concat (map args calls).

(** The text between the [|] separators of a line. *)
Fixpoint columns (line : string) : list string :=
  match line with
  | EmptyString => [EmptyString]
  | String "|"%char rest => EmptyString :: columns rest
  | String c rest =>
      match columns rest with
      | col :: cols => String c col :: cols
      | [] => [String c EmptyString]
      end
  end.

(** ** The state file *)

(** The working directory as far as [bsec_state.dat] is concerned.
    [can_write] tells whether [fopen] in mode ["w"] or ["a"] succeeds (the
    file is created when it is missing); [can_read] tells whether [fopen]
    in mode ["r"] succeeds on a file that exists. *)
Record disk : Type := mkDisk {
  state_file : option (list Byte.byte);
  can_write : bool;
  can_read : bool;
  disk_stderr : list printf_call
}.

Inductive fmode : Set := ModeRead | ModeWrite | ModeAppend.

(** A [FILE*]: null, or a stream on the state file. *)
Inductive stream : Set := NullFile | OpenFile (m : fmode).

Definition fopen (m : fmode) : prog disk stream :=
  fun d =>
    match m with
    | ModeRead =>
        match state_file d with
        | Some _ => if can_read d then Returned (OpenFile m) d
                    else Returned NullFile d
        | None => Returned NullFile d
        end
    | ModeWrite =>
        if can_write d
        then Returned (OpenFile m)
               (mkDisk (Some []) (can_write d) (can_read d) (disk_stderr d))
        else Returned NullFile d
    | ModeAppend =>
        if can_write d
        then Returned (OpenFile m)
               (mkDisk (Some (default [] (state_file d)))
                       (can_write d) (can_read d) (disk_stderr d))
        else Returned NullFile d
    end.

Definition fclose (f : stream) : prog disk unit :=
  match f with
  | NullFile => crash NullStream
  | OpenFile _ => ret tt
  end.

(** [fwrite(ptr, 1, n, f)] on a stream just opened for writing. *)
Definition fwrite (ptr : list Byte.byte) (n : nat) (f : stream) : prog disk nat :=
  fun d =>
    match f with
    | NullFile => Undefined NullStream
    | OpenFile _ =>
        if decide (n <= length ptr)%nat
        then Returned n
               (mkDisk (Some (default [] (state_file d) ++ take n ptr))
                       (can_write d) (can_read d) (disk_stderr d))
        else Undefined (LoadOutOfBounds (length ptr))
    end.

(** [fread(ptr, 1, n, f)] on a stream just opened for reading: as many
    bytes as the file has, [n] at most, land at the start of [ptr]. *)
Definition fread (ptr : list Byte.byte) (n : nat) (f : stream)
  : prog disk (nat * list Byte.byte) :=
  fun d =>
    match f with
    | NullFile => Undefined NullStream
    | OpenFile _ =>
        let got := take n (default [] (state_file d)) in
        if decide (length got <= length ptr)%nat
        then Returned (length got, got ++ drop (length got) ptr) d
        else Undefined (StoreOutOfBounds (length ptr))
    end.

Definition fprintf_stderr (fmt : string) (a : list carg) : prog disk unit :=
  modify (fun d => mkDisk (state_file d) (can_write d) (can_read d)
                          (disk_stderr d ++ [mkPrintf fmt a])).

(** [state_load] returns the count together with the buffer as it leaves
    it.  [fread] cannot give more than [n_buffer], a [uint32_t], so storing
    its result in the [uint32_t size] loses nothing. *)
Definition state_load (state_buffer : list Byte.byte) (n_buffer : nat)
  : prog disk (nat * list Byte.byte) :=
  do state_file <- fopen ModeAppend;
  run fclose state_file;
  do state_file <- fopen ModeRead;
  do loaded <-
    match state_file with
    | OpenFile _ =>
        do got <- fread state_buffer n_buffer state_file;
        run fprintf_stderr ("Loaded sensor state (%d bytes)" +:+ nl)
                           [AInt (Z.of_nat got.1)];
        ret got
    | NullFile => ret (0%nat, state_buffer)
    end;
  run fclose state_file;
  ret loaded.

Definition state_save (state_buffer : list Byte.byte) (length : nat)
  : prog disk unit :=
  do state_file <- fopen ModeWrite;
  run match state_file with
      | OpenFile _ =>
          run fwrite state_buffer length state_file;
          fprintf_stderr ("Saved sensor state" +:+ nl) []
      | NullFile => fprintf_stderr ("Unable to save sensor state!" +:+ nl) []
      end;
  fclose state_file.

(** [state_save] followed by [state_load], as across a restart. *)
Definition save_then_load (b : list Byte.byte) (n : nat)
    (state_buffer : list Byte.byte) (n_buffer : nat)
  : prog disk (nat * list Byte.byte) :=
  run state_save b n; state_load state_buffer n_buffer.

(** ** Vocabulary of the claims *)

(** A reading of the clock as [gettimeofday] gives it: microseconds below
    one second, and seconds few enough for the scaled value to fit 63 bits. *)
Definition tv_ok (tv : timeval) : Prop :=
  0 <= tv_sec tv <= 9223372036853 /\ 0 <= tv_usec tv < 1000000.

(** [a] is not later than [b]. *)
Definition tv_le (a b : timeval) : Prop :=
  tv_sec a < tv_sec b \/ (tv_sec a = tv_sec b /\ tv_usec a <= tv_usec b).


(** The accuracy tier can be read off the record: results that differ in
    it never give the same output. *)
Definition record_tells_accuracy : Prop :=
  forall debug timestamp iaq acc acc' temperature humidity pressure
         raw_temperature raw_humidity gas bsec_status static_iaq
         co2_equivalent breath_voc_equivalent out,
    output_ready debug timestamp iaq acc temperature humidity pressure
      raw_temperature raw_humidity gas bsec_status static_iaq
      co2_equivalent breath_voc_equivalent out
    = output_ready debug timestamp iaq acc' temperature humidity pressure
        raw_temperature raw_humidity gas bsec_status static_iaq
        co2_equivalent breath_voc_equivalent out ->
    acc = acc'.

(** The six values [output_ready] hands to [printf], in the order of the
    columns. *)
Definition six_fields (timestamp iaq temperature humidity pressure gas : Z)
  : list carg :=
  [ ADouble (DDiv (DOfInt64 timestamp) (DConst "1000000000.0d"));
    ADouble (DOfFloat (FBits temperature));
    ADouble (DOfFloat (FDiv (FBits pressure) (FConst "100.0f")));
    ADouble (DOfFloat (FBits humidity));
    ADouble (DOfFloat (FBits gas));
    ADouble (DOfFloat (FBits iaq)) ].

(** ** Concrete situations *)

(** An adapter that takes one byte of the next frame. *)
Definition short_bus : bus := mkBus [Some 1%nat] [] [] [].

(** An adapter that takes three bytes and then delivers four. *)
Definition good_bus : bus :=
  mkBus [Some 3%nat; Some 1%nat]
        [Some [Byte.x12; Byte.x34; Byte.x56; Byte.x78]] [] [].


(** A wall clock that advances by a quarter of a second per reading. *)
Definition ticking : clock :=
  mkClock (fun n => mkTimeval (1700000000 + Z.of_nat n / 4)
                              (Z.of_nat n mod 4 * 250000)) 0.

(** A directory in which [bsec_state.dat] exists but cannot be opened for
    reading (a write-only file). *)
Definition unreadable_disk : disk :=
  mkDisk (Some [Byte.x01; Byte.x02]) true false [].

(** A read-only directory that has no state file. *)
Definition readonly_disk : disk := mkDisk None false true [].

(** A fresh, usable directory. *)
Definition fresh_disk : disk := mkDisk None true true [].

(** ** The configuration blob *)

(** [config_load] copies [bsec_config_iaq], the table declared in
    [bsec_serialized_configurations_iaq.h]; that header is not part of this
    file and the table is taken as a parameter.  The call is
    [memcpy(config_buffer, bsec_config_iaq, sizeof(bsec_config_iaq))]:
    [n_buffer] takes no part in it. *)
Definition config_load {W} (bsec_config_iaq : list Byte.byte)
    (config_buffer : list Byte.byte) (n_buffer : nat)
  : prog W (nat * list Byte.byte) :=
  let size := length bsec_config_iaq in
  if decide (size <= length config_buffer)%nat
  then ret (size, bsec_config_iaq ++ drop size config_buffer)
  else crash (StoreOutOfBounds (length config_buffer)).

(** ** Opening the device *)

(** The device node and the global descriptor.  [open_answer] is what
    [open("/dev/i2c-1", O_RDWR)] will return, [ioctl_answer] what
    [ioctl(fd, I2C_SLAVE, _)] will return on the open device; on a
    descriptor that is not open [ioctl] fails. *)
Record i2c_dev : Type := mkDev {
  open_answer : Z;
  ioctl_answer : Z;
  g_i2cFid : Z;
  fd_open : bool;
  slave : option Z;
  dev_stderr : list string
}.

Definition dev_perror (tag : string) : prog i2c_dev unit :=
  modify (fun d => mkDev (open_answer d) (ioctl_answer d) (g_i2cFid d)
                         (fd_open d) (slave d) (dev_stderr d ++ [tag])).

Definition sys_open : prog i2c_dev Z :=
  fun d => Returned (open_answer d) d.

Definition sys_ioctl_slave (fd address : Z) : prog i2c_dev Z :=
  fun d =>
    if fd_open d
    then if decide (0 <= ioctl_answer d)
         then Returned (ioctl_answer d)
                (mkDev (open_answer d) (ioctl_answer d) (g_i2cFid d)
                       (fd_open d) (Some address) (dev_stderr d))
         else Returned (ioctl_answer d) d
    else Returned (-1) d.

Definition sys_close (fd : Z) : prog i2c_dev Z :=
  fun d =>
    if fd_open d
    then Returned 0 (mkDev (open_answer d) (ioctl_answer d) (g_i2cFid d)
                           false (slave d) (dev_stderr d))
    else Returned (-1) d.

Definition i2cOpen : prog i2c_dev unit :=
  do fd <- sys_open;
  run modify (fun d => mkDev (open_answer d) (ioctl_answer d) fd
                             (bool_decide (0 <= fd)) (slave d) (dev_stderr d));
  if decide (fd < 0)
  then run dev_perror "i2cOpen"; exit 1
  else ret tt.

Definition i2cClose : prog i2c_dev unit :=
  do fd <- (fun d => Returned (g_i2cFid d) d);
  run sys_close fd;
  ret tt.

Definition i2cSetAddress (address : Z) : prog i2c_dev unit :=
  do fd <- (fun d => Returned (g_i2cFid d) d);
  do r <- sys_ioctl_slave fd address;
  if decide (r < 0)
  then run dev_perror "i2cSetAddress"; exit 1
  else ret tt.

(** The first two steps of [main]: [i2cOpen(); i2cSetAddress(address);]. *)
Definition i2c_startup (address : Z) : prog i2c_dev unit :=
  run i2cOpen; i2cSetAddress address.

(** ** The process and [main] *)

(** What [bsec_iot_init] hands back ([return_values_init] of
    [bsec_integration.h]): the status of the sensor driver, an [int8_t],
    and the status of the library. *)
Record return_values_init : Type := mkInit {
  bme680_status : Z;
  bsec_status : Z
}.

Section Main.

(** The state of the BSEC library and of the sensor driver, which live
    outside [reader.c]. *)
Variable L : Type.

(** Everything the process touches.  Each part keeps its own record of
    what went to the error stream; [p_stderr] holds what [main] itself
    prints there. *)
Record process : Type := mkProcess {
  p_dev : i2c_dev;
  p_bus : bus;
  p_disk : disk;
  p_clock : clock;
  p_slept : list Z;
  p_stdout : list printf_call;
  p_stderr : list printf_call;
  p_lib : L
}.

Definition set_dev (v : i2c_dev) (w : process) : process :=
  mkProcess v (p_bus w) (p_disk w) (p_clock w) (p_slept w) (p_stdout w)
            (p_stderr w) (p_lib w).
Definition set_bus (v : bus) (w : process) : process :=
  mkProcess (p_dev w) v (p_disk w) (p_clock w) (p_slept w) (p_stdout w)
            (p_stderr w) (p_lib w).
Definition set_disk (v : disk) (w : process) : process :=
  mkProcess (p_dev w) (p_bus w) v (p_clock w) (p_slept w) (p_stdout w)
            (p_stderr w) (p_lib w).
Definition set_clock (v : clock) (w : process) : process :=
  mkProcess (p_dev w) (p_bus w) (p_disk w) v (p_slept w) (p_stdout w)
            (p_stderr w) (p_lib w).
Definition set_slept (v : list Z) (w : process) : process :=
  mkProcess (p_dev w) (p_bus w) (p_disk w) (p_clock w) v (p_stdout w)
            (p_stderr w) (p_lib w).
Definition set_stdout (v : list printf_call) (w : process) : process :=
  mkProcess (p_dev w) (p_bus w) (p_disk w) (p_clock w) (p_slept w) v
            (p_stderr w) (p_lib w).
Definition set_stderr (v : list printf_call) (w : process) : process :=
  mkProcess (p_dev w) (p_bus w) (p_disk w) (p_clock w) (p_slept w)
            (p_stdout w) v (p_lib w).

(** A hook of one part of the system, run inside the process. *)
Definition within {V A} (get : process -> V) (set : V -> process -> process)
    (c : prog V A) : prog process A :=
  fun w =>
    match c (get w) with
    | Returned a v => Returned a (set v w)
    | Exited status v => Exited status (set v w)
    | Undefined f => Undefined f
    end.

Definition main_fprintf_stderr (fmt : string) : prog process unit :=
  modify (fun w => set_stderr (p_stderr w ++ [mkPrintf fmt []]) w).

(** The types of the hooks, as [bsec_integration.h] declares them. *)
Definition write_hook : Type :=
  Byte.byte -> Byte.byte -> list Byte.byte -> nat -> prog process Z.
Definition read_hook : Type :=
  Byte.byte -> Byte.byte -> list Byte.byte -> nat
  -> prog process (Z * list Byte.byte).
Definition sleep_hook : Type := Z -> prog process unit.
Definition load_hook : Type :=
  list Byte.byte -> nat -> prog process (nat * list Byte.byte).
Definition save_hook : Type := list Byte.byte -> nat -> prog process unit.
Definition output_hook : Type :=
  Z -> Z -> Z -> Z -> Z -> Z -> Z -> Z -> Z -> Z -> Z -> Z -> Z
  -> prog process unit.

(** [bsec_iot_init] and [bsec_iot_loop] are defined in [bsec_integration.c]
    and the constants in its headers; none of them is part of [reader.c].
    [main] is embedded for whatever they are.  A [prog] always comes to an
    end, so the embedding speaks of the loop only as far as it ends. *)
Variable bsec_iot_init :
  cfloat -> cfloat -> write_hook -> read_hook -> sleep_hook -> load_hook
  -> load_hook -> prog process return_values_init.
Variable bsec_iot_loop :
  sleep_hook -> prog process Z -> output_hook -> save_hook -> Z
  -> prog process unit.
Variable BSEC_SAMPLE_RATE_CONTINUOUS : cfloat.
Variable BME680_I2C_ADDR_SECONDARY : Z.
Variable bsec_config_iaq : list Byte.byte.

(** [setbuf(stdout, NULL)] changes when the output is flushed, not what is
    written; it has no counterpart here.  [debug] tells whether [DEBUG] was
    defined at compile time. *)
Definition main (debug : bool) : prog process Z :=
  run main_fprintf_stderr ("Starting sensor reader..." +:+ nl);
  run within p_dev set_dev i2cOpen;
  run within p_dev set_dev (i2cSetAddress BME680_I2C_ADDR_SECONDARY);
  run main_fprintf_stderr ("I2C initialized..." +:+ nl);
  do ret_ <- bsec_iot_init BSEC_SAMPLE_RATE_CONTINUOUS (FConst "0.0f")
               (fun dev_addr reg_addr reg_data_ptr data_len =>
                  within p_bus set_bus
                    (bus_write dev_addr reg_addr reg_data_ptr data_len))
               (fun dev_addr reg_addr reg_data_ptr data_len =>
                  within p_bus set_bus
                    (bus_read dev_addr reg_addr reg_data_ptr data_len))
               (fun t_ms => within p_slept set_slept (sleeper t_ms))
               (fun state_buffer n_buffer =>
                  within p_disk set_disk (state_load state_buffer n_buffer))
               (fun config_buffer n_buffer =>
                  config_load bsec_config_iaq config_buffer n_buffer);
  if decide (bme680_status ret_ <> 0) then ret (bme680_status ret_)
  else if decide (bsec_status ret_ <> 0) then ret (bsec_status ret_)
  else
    run main_fprintf_stderr ("BSEC initialized..." +:+ nl);
    run (if debug then ret tt else within p_stdout set_stdout output_header);
    run bsec_iot_loop
          (fun t_ms => within p_slept set_slept (sleeper t_ms))
          (within p_clock set_clock get_timestamp_us)
          (fun timestamp iaq iaq_accuracy temperature humidity pressure
               raw_temperature raw_humidity gas bsec_status static_iaq
               co2_equivalent breath_voc_equivalent =>
             within p_stdout set_stdout
               (output_ready debug timestamp iaq iaq_accuracy temperature
                  humidity pressure raw_temperature raw_humidity gas
                  bsec_status static_iaq co2_equivalent
                  breath_voc_equivalent))
          (fun state_buffer length =>
             within p_disk set_disk (state_save state_buffer length))
          3600;
    ret 0.

(** The process once the device is open and bound to [address]. *)
Definition started (address : Z) (w : process) : process :=
  set_stderr
    (p_stderr w ++ [mkPrintf ("Starting sensor reader..." +:+ nl) [];
                    mkPrintf ("I2C initialized..." +:+ nl) []])
    (set_dev (mkDev (open_answer (p_dev w)) (ioctl_answer (p_dev w))
                    (open_answer (p_dev w)) true (Some address)
                    (dev_stderr (p_dev w))) w).

(** The call of [bsec_iot_init] as [main] makes it. *)
Definition main_init : prog process return_values_init :=
  bsec_iot_init BSEC_SAMPLE_RATE_CONTINUOUS (FConst "0.0f")
    (fun dev_addr reg_addr reg_data_ptr data_len =>
       within p_bus set_bus
         (bus_write dev_addr reg_addr reg_data_ptr data_len))
    (fun dev_addr reg_addr reg_data_ptr data_len =>
       within p_bus set_bus
         (bus_read dev_addr reg_addr reg_data_ptr data_len))
    (fun t_ms => within p_slept set_slept (sleeper t_ms))
    (fun state_buffer n_buffer =>
       within p_disk set_disk (state_load state_buffer n_buffer))
    (fun config_buffer n_buffer =>
       config_load bsec_config_iaq config_buffer n_buffer).

(** The call of [bsec_iot_loop] as [main] makes it. *)
Definition main_loop (debug : bool) : prog process unit :=
  bsec_iot_loop
    (fun t_ms => within p_slept set_slept (sleeper t_ms))
    (within p_clock set_clock get_timestamp_us)
    (fun timestamp iaq iaq_accuracy temperature humidity pressure
         raw_temperature raw_humidity gas bsec_status static_iaq
         co2_equivalent breath_voc_equivalent =>
       within p_stdout set_stdout
         (output_ready debug timestamp iaq iaq_accuracy temperature
            humidity pressure raw_temperature raw_humidity gas
            bsec_status static_iaq co2_equivalent
            breath_voc_equivalent))
    (fun state_buffer length =>
       within p_disk set_disk (state_save state_buffer length))
    3600.

End Main.

Arguments mkProcess {L}.
Arguments p_dev {L}.
Arguments p_bus {L}.
Arguments p_disk {L}.
Arguments p_clock {L}.
Arguments p_slept {L}.
Arguments p_stdout {L}.
Arguments p_stderr {L}.
Arguments p_lib {L}.

(** The process as the loop finds it: [main] has printed its last message
    and, in the plain build, the header. *)
Definition ready {L} (debug : bool) (w : process L) : process L :=
  let w' := set_stderr L
              (p_stderr w ++ [mkPrintf ("BSEC initialized..." +:+ nl) []]) w in
  if debug then w'
  else set_stdout L
         (p_stdout w ++
          [mkPrintf
             ("Timestamp|Temperature|Pressure|RelativeHumidity|GasRawReading|IAQ"
              +:+ nl) []]) w'.

(** ** Further vocabulary *)

(** The formats of a run of [printf] calls, joined: the line they print,
    still with its conversion specifications. *)
Definition line_format (calls : list printf_call) : string :=
  foldr (fun c rest => format c +:+ rest) EmptyString calls.

(** A reading [gettimeofday] can give: microseconds below one second and a
    time that is not before the epoch. *)
Definition tv_normal (tv : timeval) : Prop :=
  0 <= tv_sec tv /\ 0 <= tv_usec tv < 1000000.

(** An adapter and a device in working order: the next [write] takes up to
    32 bytes, the next [read] delivers six. *)
Definition working_bus : bus :=
  mkBus [Some 32%nat]
        [Some [Byte.xa1; Byte.xa2; Byte.xa3; Byte.xa4; Byte.xa5; Byte.xa6]]
        [] [].

(** A device that delivers three bytes to the next [read]. *)
Definition slow_bus : bus :=
  mkBus [Some 1%nat] [Some [Byte.x12; Byte.x34; Byte.x56]] [] [].

(** A directory holding a state file of five bytes. *)
Definition used_disk : disk :=
  mkDisk (Some [Byte.x01; Byte.x02; Byte.x03; Byte.x04; Byte.x05])
         true true [].

(** A stand-in for [bsec_iot_init]: it reads the chip identification
    register through the read hook and reports the result of the read as
    the status of the driver. *)
Definition init_stub
  : cfloat -> cfloat -> write_hook unit -> read_hook unit -> sleep_hook unit
    -> load_hook unit -> load_hook unit
    -> prog (process unit) return_values_init :=
  fun _ _ bus_write bus_read sleep state_load config_load =>
    do r <- bus_read Byte.x77 Byte.xd0 [Byte.x00] 1%nat;
    ret (mkInit r.1 0).

(** A stand-in for [bsec_iot_loop] that runs one cycle and comes back. *)
Definition loop_stub
  : sleep_hook unit -> prog (process unit) Z -> output_hook unit
    -> save_hook unit -> Z -> prog (process unit) unit :=
  fun sleep get_timestamp_us output_ready state_save save_intvl =>
    do t <- get_timestamp_us;
    run output_ready t 0 0 0 0 0 0 0 0 0 0 0 0;
    sleep 1000.

(** A process that has not started yet. *)
Definition idle_process (dev : i2c_dev) (b : bus) : process unit :=
  mkProcess dev b fresh_disk ticking [] [] [] tt.

(** * Properties *)

Ltac unfold_prog :=
  unfold lift_fault, lift_load, bind, ret, exit, crash, modify in *;
  cbn beta iota in *.

(** ** Local arrays *)

Section Cells.

Implicit Types (a reg : cells) (v : Byte.byte) (vs pre : list Byte.byte).

Lemma store_cell_inr a i v :
  (i < length a)%nat -> store_cell a i v = inr (<[i := Some v]> a).
Proof. intros Hi. unfold store_cell. by rewrite decide_True. Qed.

Lemma store_cell_inl a i v :
  (length a <= i)%nat -> store_cell a i v = inl (StoreOutOfBounds i).
Proof. intros Hi. unfold store_cell. rewrite decide_False; [done | lia]. Qed.

Lemma load_cells_cons c a n :
  load_cells (Some c :: a) (S n) =
  match load_cells a n with Some vs => Some (c :: vs) | None => None end.
Proof. reflexivity. Qed.

(** Storing at the first cell not yet loaded extends what can be loaded. *)
Lemma load_cells_snoc a i pre v :
  load_cells a i = Some pre ->
  (i < length a)%nat ->
  load_cells (<[i := Some v]> a) (S i) = Some (pre ++ [v]).
Proof.
  revert i pre. induction a as [|c a IH]; intros i pre Hload Hi.
  - simpl in Hi. lia.
  - destruct i as [|i].
    + simpl in Hload. injection Hload as <-. reflexivity.
    + destruct c as [c|]; [|discriminate].
      rewrite load_cells_cons in Hload.
      destruct (load_cells a i) as [vs|] eqn:E; [|discriminate].
      injection Hload as <-.
      change (<[S i := Some v]> (Some c :: a)) with (Some c :: <[i := Some v]> a).
      rewrite load_cells_cons, (IH i vs); [reflexivity | done |].
      simpl in Hi. lia.
Qed.

Lemma load_cells_length a n vs : load_cells a n = Some vs -> length vs = n.
Proof.
  revert a vs. induction n as [|n IH]; intros a vs H; simpl in H.
  - by injection H as <-.
  - destruct a as [|[c|] a]; try discriminate.
    destruct (load_cells a n) as [ws|] eqn:E; [|discriminate].
    injection H as <-. simpl. f_equal. eauto.
Qed.

(** The copy loop while it stays inside [reg]: it leaves the cells below
    the counter loadable, and they are the old ones followed by the bytes
    of the payload it went through. *)
Lemma bus_write_copy_in_bounds todo : forall i reg p pre,
  (1 <= i)%nat ->
  (i + todo <= length reg)%nat ->
  (i - 1 + todo <= length p)%nat ->
  load_cells reg i = Some pre ->
  exists reg',
    bus_write_copy todo i reg p = inr reg' /\
    length reg' = length reg /\
    load_cells reg' (i + todo) = Some (pre ++ take todo (drop (i - 1) p)).
Proof.
  induction todo as [|todo IH]; intros i reg p pre Hi Hreg Hp Hload.
  - exists reg. simpl. rewrite Nat.add_0_r, app_nil_r. done.
  - cbn [bus_write_copy].
    destruct (lookup_lt_is_Some_2 p (i - 1)) as [v Hv]; [lia|].
    rewrite Hv, store_cell_inr by lia.
    destruct (IH (S i) (<[i := Some v]> reg) p (pre ++ [v])) as (reg' & Hc & Hl & Hld).
    + lia.
    + rewrite length_insert. lia.
    + lia.
    + by apply load_cells_snoc; [|lia].
    + exists reg'. split; [done|]. rewrite length_insert in Hl. split; [done|].
      replace (i + S todo)%nat with (S i + todo)%nat by lia.
      rewrite Hld, <- app_assoc. do 2 f_equal.
      rewrite (drop_S p v (i - 1)) by done.
      replace (S (i - 1)) with (S i - 1)%nat by lia. reflexivity.
Qed.

(** The copy loop when it is asked to go past the last cell. *)
Lemma bus_write_copy_overrun todo : forall i reg p,
  (1 <= i <= length reg)%nat ->
  (length reg < i + todo)%nat ->
  exists f,
    bus_write_copy todo i reg p = inl f /\
    ((i - 1 + todo <= length p)%nat -> f = StoreOutOfBounds (length reg)).
Proof.
  induction todo as [|todo IH]; intros i reg p Hi Hover; [lia|].
  cbn [bus_write_copy].
  destruct (p !! (i - 1)%nat) as [v|] eqn:Hv.
  - destruct (decide (i = length reg)) as [->|Hne].
    + rewrite store_cell_inl by lia. eauto.
    + rewrite store_cell_inr by lia.
      destruct (IH (S i) (<[i := Some v]> reg) p) as (f & Hc & Hf).
      * rewrite length_insert. lia.
      * rewrite length_insert. lia.
      * exists f. split; [done|]. intros Hp.
        rewrite length_insert in Hf. apply Hf. lia.
  - eexists. split; [reflexivity|]. intros Hp.
    apply lookup_ge_None_1 in Hv. lia.
Qed.

(** A copy that comes to its end has stayed inside both objects. *)
Lemma bus_write_copy_inr_bounds todo : forall i reg p reg',
  (1 <= i)%nat ->
  bus_write_copy todo i reg p = inr reg' ->
  todo = 0%nat \/ ((i + todo <= length reg)%nat /\ (i - 1 + todo <= length p)%nat).
Proof.
  induction todo as [|todo IH]; intros i reg p reg' Hi Hc; [by left | right].
  cbn [bus_write_copy] in Hc.
  destruct (p !! (i - 1)%nat) as [v|] eqn:Hv; [|discriminate].
  apply lookup_lt_Some in Hv.
  unfold store_cell in Hc. destruct (decide (i < length reg)%nat); [|discriminate].
  apply IH in Hc; [|lia]. rewrite length_insert in Hc. lia.
Qed.

End Cells.

(** ** The bus *)

Section Bus.

Implicit Types (b : bus) (p buf frame : list Byte.byte).

(** [write] always comes back, with [-1] or with a count between [0] and
    the length of the frame. *)
Lemma sys_write_returns frame b :
  exists moved,
    sys_write frame b = Returned moved (after_write frame moved b) /\
    -1 <= moved <= Z.of_nat (length frame).
Proof.
  unfold sys_write, after_write.
  destruct (tx_script b) as [|[k|] ?]; eexists; (split; [reflexivity | lia]).
Qed.

(** [read] into a buffer with room for [count] bytes always comes back; a
    full count means that [count] bytes were delivered and sit at the start
    of the buffer. *)
Lemma sys_read_returns buf count b :
  (count <= length buf)%nat ->
  exists moved data buf',
    sys_read buf count b = Returned (moved, buf') (after_read count moved data b) /\
    length buf' = length buf /\
    (moved = Z.of_nat count -> length data = count /\ take count buf' = data).
Proof.
  intros Hroom. unfold sys_read, after_read.
  destruct (rx_script b) as [|[d|] ?].
  - exists (-1), [], buf. split; [reflexivity|]. split; [done|]. lia.
  - assert (length (take count d) <= count)%nat as Hc by (rewrite length_take; lia).
    rewrite decide_True by lia.
    eexists _, (take count d), _. split; [reflexivity|]. split.
    + rewrite length_app, length_drop. lia.
    + intros Hfull. apply Nat2Z.inj in Hfull. split; [done|].
      rewrite <- Hfull at 1. by rewrite take_app_length.
  - exists (-1), [], buf. split; [reflexivity|]. split; [done|]. lia.
Qed.

Lemma bus_write_reg0 (reg_addr : Byte.byte) n :
  store_cell (replicate (S n) None) 0 reg_addr =
  inr (Some reg_addr :: replicate n None).
Proof. reflexivity. Qed.

(** Inside the bounds of both objects [bus_write] is one [write] of the
    frame, followed by the test of its result. *)
Lemma bus_write_unfold dev_addr reg_addr p data_len b :
  (data_len <= 15)%nat ->
  (data_len <= length p)%nat ->
  bus_write dev_addr reg_addr p data_len b =
  bind (sys_write (reg_addr :: take data_len p))
       (fun moved =>
          if decide (moved <> Z.of_nat data_len + 1)
          then run bus_perror "user_i2c_write"; exit 1
          else ret 0) b.
Proof.
  intros H15 Hp. unfold bus_write.
  rewrite bus_write_reg0.
  destruct (bus_write_copy_in_bounds data_len 1
              (Some reg_addr :: replicate 15 None) p [reg_addr])
    as (reg' & Hc & _ & Hld); [lia | simpl; lia | lia | reflexivity |].
  unfold bind at 1 2 3. unfold lift_fault at 1, ret at 1.
  rewrite Hc. unfold lift_fault, ret at 1.
  replace (data_len + 1)%nat with (1 + data_len)%nat by lia.
  rewrite Hld. unfold lift_load, ret at 1.
  rewrite drop_0. reflexivity.
Qed.

(** A call that reaches its [return] had [data_len] within both bounds. *)
Lemma bus_write_returned_bounds dev_addr reg_addr p data_len b rslt b' :
  bus_write dev_addr reg_addr p data_len b = Returned rslt b' ->
  (data_len <= 15)%nat /\ (data_len <= length p)%nat.
Proof.
  unfold bus_write. rewrite bus_write_reg0. unfold_prog.
  destruct (bus_write_copy data_len 1 (Some reg_addr :: replicate 15 None) p)
    as [f|reg'] eqn:Hc; [discriminate|].
  intros _. apply bus_write_copy_inr_bounds in Hc; [|lia].
  simpl in Hc. lia.
Qed.

(** C10.  [bus_write] builds the frame in [reg], an array of 16 bytes.  For
    a payload that really holds [data_len] bytes, the copy of the payload
    into [reg] stays inside the array exactly when [data_len <= 15]; from
    [data_len = 16] on the loop stores at index 16, past the last cell, and
    the call is undefined.  With [data_len <= 15] the call is defined. *)
Theorem bus_write_copy_bound dev_addr reg_addr p data_len b :
  (data_len <= length p)%nat ->
  ((exists reg',
      bus_write_copy data_len 1 (<[0%nat := Some reg_addr]> (replicate 16 None)) p
      = inr reg')
   <-> (data_len <= 15)%nat) /\
  ((16 <= data_len)%nat ->
   bus_write_copy data_len 1 (<[0%nat := Some reg_addr]> (replicate 16 None)) p
   = inl (StoreOutOfBounds 16) /\
   bus_write dev_addr reg_addr p data_len b = Undefined (StoreOutOfBounds 16)) /\
  ((data_len <= 15)%nat ->
   forall f, bus_write dev_addr reg_addr p data_len b <> Undefined f).
Proof.
  intros Hp.
  change (<[0%nat := Some reg_addr]> (replicate 16 None))
    with (Some reg_addr :: replicate 15 None).
  assert (Hover : (16 <= data_len)%nat ->
            bus_write_copy data_len 1 (Some reg_addr :: replicate 15 None) p
            = inl (StoreOutOfBounds 16)).
  { intros H16.
    destruct (bus_write_copy_overrun data_len 1
                (Some reg_addr :: replicate 15 None) p) as (f & Hc & Hf).
    - simpl. lia.
    - simpl. lia.
    - rewrite Hc, Hf; [reflexivity | lia]. }
  split; [split|split].
  - intros [reg' Hc]. destruct (decide (data_len <= 15)%nat) as [|Hn]; [done|].
    rewrite Hover in Hc by lia. discriminate.
  - intros H15.
    destruct (bus_write_copy_in_bounds data_len 1
                (Some reg_addr :: replicate 15 None) p [reg_addr])
      as (reg' & Hc & _); [lia | simpl; lia | lia | reflexivity |].
    by exists reg'.
  - intros H16. split; [by apply Hover|].
    unfold bus_write. rewrite bus_write_reg0. unfold_prog.
    by rewrite Hover.
  - intros H15 f. rewrite bus_write_unfold by done. unfold_prog.
    destruct (sys_write_returns (reg_addr :: take data_len p) b) as (m & -> & _).
    destruct (decide (m <> Z.of_nat data_len + 1)); discriminate.
Qed.

(** C7.  A call of [bus_write] that returns has put one frame on the bus:
    the register offset followed by the first [data_len] bytes of the
    payload, [data_len + 1] bytes in all, and the adapter took them all. *)
Theorem bus_write_frame dev_addr reg_addr p data_len b rslt b' :
  bus_write dev_addr reg_addr p data_len b = Returned rslt b' ->
  rslt = 0 /\
  bus_log b' =
    bus_log b ++ [EvWrite (reg_addr :: take data_len p) (Z.of_nat data_len + 1)] /\
  length (reg_addr :: take data_len p) = S data_len /\
  (forall i, (i < data_len)%nat ->
     (reg_addr :: take data_len p) !! S i = p !! i) /\
  bus_stderr b' = bus_stderr b.
Proof.
  intros Hret.
  destruct (bus_write_returned_bounds _ _ _ _ _ _ _ Hret) as [H15 Hp].
  rewrite bus_write_unfold in Hret by done. unfold_prog.
  destruct (sys_write_returns (reg_addr :: take data_len p) b) as (m & Hw & _).
  rewrite Hw in Hret.
  destruct (decide (m <> Z.of_nat data_len + 1)) as [|Heq]; [discriminate|].
  apply dec_stable in Heq. injection Hret as <- <-. subst m.
  repeat split.
  - simpl. rewrite length_take. lia.
  - intros i Hi. simpl. by rewrite lookup_take_lt.
Qed.

(** C3, as amended.  When the adapter takes fewer than [data_len + 1] bytes
    (or [write] fails), a call of [bus_write] within the bounds of its
    objects prints [user_i2c_write] through [perror] and ends the process
    with [exit(1)]; it never returns a result. *)
Theorem bus_write_short_transfer dev_addr reg_addr p data_len b moved b1 :
  (data_len <= 15)%nat ->
  (data_len <= length p)%nat ->
  sys_write (reg_addr :: take data_len p) b = Returned moved b1 ->
  moved < Z.of_nat data_len + 1 ->
  bus_write dev_addr reg_addr p data_len b
  = Exited 1 (after_perror "user_i2c_write" b1) /\
  ~ reports_transfer_incomplete (bus_write dev_addr reg_addr p data_len b).
Proof.
  intros H15 Hp Hw Hshort.
  assert (bus_write dev_addr reg_addr p data_len b
          = Exited 1 (after_perror "user_i2c_write" b1)) as ->.
  { rewrite bus_write_unfold by done. unfold_prog. rewrite Hw.
    rewrite decide_True by lia. reflexivity. }
  split; [reflexivity|]. intros (r & b' & H & _). discriminate.
Qed.

(** What the next [write] of a frame of [n] bytes will answer. *)
Lemma sys_write_answer frame b :
  sys_write frame b =
  Returned (match tx_script b with
            | Some k :: _ => Z.of_nat (k `min` length frame)
            | _ => -1
            end)
           (after_write frame
              (match tx_script b with
               | Some k :: _ => Z.of_nat (k `min` length frame)
               | _ => -1
               end) b).
Proof. reflexivity. Qed.

(** [read] into a buffer with room for [count] bytes, by the next answer
    of the device. *)
Lemma sys_read_answer buf count b :
  (count <= length buf)%nat ->
  sys_read buf count b =
  match rx_script b with
  | Some d :: _ =>
      Returned (Z.of_nat (length (take count d)),
                take count d ++ drop (length (take count d)) buf)
               (after_read count (Z.of_nat (length (take count d)))
                           (take count d) b)
  | _ => Returned (-1, buf) (after_read count (-1) [] b)
  end.
Proof.
  intros Hroom. unfold sys_read.
  destruct (rx_script b) as [|[d|] ?]; try reflexivity.
  rewrite decide_True; [reflexivity|]. rewrite length_take. lia.
Qed.

(** [bus_read] in full: its result, the buffer and the device after it,
    from the two answers of the device. *)
Lemma bus_read_run dev_addr reg_addr buf data_len b :
  (data_len <= length buf)%nat ->
  exists wrote got data,
    wrote = match tx_script b with
            | Some k :: _ => Z.of_nat (k `min` 1)
            | _ => -1
            end /\
    (got, data) = match rx_script b with
                  | Some d :: _ =>
                      (Z.of_nat (length (take data_len d)), take data_len d)
                  | _ => (-1, [])
                  end /\
    bus_read dev_addr reg_addr buf data_len b =
    Returned
      (if decide (got <> Z.of_nat data_len) then 1
       else if decide (wrote <> 1) then 1 else 0,
       data ++ drop (length data) buf)
      (mkBus (tail (tx_script b)) (tail (rx_script b))
         (bus_log b ++ [EvWrite [reg_addr] wrote; EvRead data_len got data])
         (bus_stderr b
          ++ (if decide (wrote <> 1) then ["user_i2c_read_reg"%string] else [])
          ++ (if decide (got <> Z.of_nat data_len)
              then ["user_i2c_read_data"%string] else []))).
Proof.
  intros Hroom. unfold bus_read. rewrite bus_write_reg0. unfold_prog.
  change (load_cells (Some reg_addr :: replicate 0 None) 1) with (Some [reg_addr]).
  cbn beta iota. rewrite sys_write_answer.
  change (length [reg_addr]) with 1%nat.
  set (wrote := match tx_script b with
                | Some k :: _ => Z.of_nat (k `min` 1)
                | _ => -1
                end).
  exists wrote.
  destruct (decide (wrote <> 1)) as [Hw|Hw]; unfold bus_perror, modify;
    cbn beta iota; rewrite sys_read_answer by done;
    unfold after_perror, after_write, after_read; cbn [rx_script tx_script bus_log bus_stderr];
    destruct (rx_script b) as [|[d|] rest] eqn:Hrx; cbn [fst snd tail];
    (eexists _, _; split; [reflexivity|]; split; [reflexivity|]);
    match goal with
    | |- context [decide (?g <> Z.of_nat data_len)] =>
        destruct (decide (g <> Z.of_nat data_len))
    end; cbn beta iota; unfold after_perror;
    cbn [rx_script tx_script bus_log bus_stderr];
    rewrite <- ?app_assoc, ?app_nil_r; reflexivity.
Qed.

(** C6.  [bus_read] with room for [data_len] bytes in the buffer always
    returns.  It issues a write of the one byte [reg_addr] and then a read
    of [data_len] bytes, each using up the next answer of the device:
    [wrote] is what the adapter answers to the write, [got] and [data] what
    the device answers to the read.  Its result is non-zero exactly when
    the write did not move one byte or the read did not move [data_len]
    bytes; the bytes delivered are put at the start of the buffer, so that
    on a zero result the buffer starts with the [data_len] bytes read. *)
Theorem bus_read_result dev_addr reg_addr buf data_len b :
  (data_len <= length buf)%nat ->
  exists rslt buf' b' wrote got data,
    wrote = match tx_script b with
            | Some k :: _ => Z.of_nat (k `min` 1)
            | _ => -1
            end /\
    (got, data) = match rx_script b with
                  | Some d :: _ =>
                      (Z.of_nat (length (take data_len d)), take data_len d)
                  | _ => (-1, [])
                  end /\
    bus_read dev_addr reg_addr buf data_len b = Returned (rslt, buf') b' /\
    tx_script b' = tail (tx_script b) /\
    rx_script b' = tail (rx_script b) /\
    bus_log b' =
      bus_log b ++ [EvWrite [reg_addr] wrote; EvRead data_len got data] /\
    buf' = data ++ drop (length data) buf /\
    (rslt <> 0 <-> wrote <> 1 \/ got <> Z.of_nat data_len) /\
    (rslt = 0 -> length data = data_len /\ take data_len buf' = data).
Proof.
  intros Hroom.
  destruct (bus_read_run dev_addr reg_addr buf data_len b Hroom)
    as (wrote & got & data & Hw & Hg & Hrun).
  eexists _, _, _, wrote, got, data.
  split; [exact Hw|]. split; [exact Hg|]. split; [exact Hrun|].
  cbn [tx_script rx_script bus_log].
  split; [reflexivity|]. split; [reflexivity|]. split; [reflexivity|].
  split; [reflexivity|].
  assert (got = Z.of_nat data_len -> length data = data_len) as Hfull.
  { intros Hfull. destruct (rx_script b) as [|[d|] ?]; injection Hg as Hgot ->;
      [simpl in *; lia | lia | simpl in *; lia]. }
  destruct (decide (got <> Z.of_nat data_len)) as [Hn|Hn].
  - split; [split; [tauto | lia] | intros ?; lia].
  - apply dec_stable in Hn. destruct (decide (wrote <> 1)) as [Hw1|Hw1].
    + split; [split; [tauto | lia] | intros ?; lia].
    + split; [split; [done | tauto]|]. intros _.
      specialize (Hfull Hn). split; [exact Hfull|].
      rewrite <- Hfull at 1. by rewrite take_app_length.
Qed.

End Bus.

(** ** The delay *)

Section Delay.

(** Up to 4294967 ms the product fits 32 bits and the delay asked for is
    the one wanted. *)
Lemma sleeper_in_range t_ms asked :
  0 <= t_ms <= 4294967 ->
  sleeper t_ms asked = Returned tt (asked ++ [t_ms * 1000]).
Proof.
  intros Hr. unfold sleeper, usleep, modify.
  rewrite Z.mod_small by lia. reflexivity.
Qed.

(** Over all of [uint32_t] the delay asked for is the wanted one exactly
    up to that bound. *)
Lemma sleeper_exact_iff t_ms asked :
  0 <= t_ms < 2 ^ 32 ->
  (sleeper t_ms asked = Returned tt (asked ++ [t_ms * 1000])
   <-> t_ms <= 4294967).
Proof.
  intros Hr. split.
  - unfold sleeper, usleep, modify. intros H.
    injection H as H. apply app_inv_head in H. injection H as H.
    pose proof (Z.mod_pos_bound (t_ms * 1000) (2 ^ 32) eq_refl) as Hm.
    rewrite H in Hm. change (2 ^ 32) with 4294967296 in Hm. clear H Hr. lia.
  - intros. apply sleeper_in_range. lia.
Qed.

(** C8.  For [t_ms = 4294968] the product [t_ms * 1000] does not fit the
    32 bits it is computed in: [sleeper] asks [usleep] for 704 microseconds,
    not for 4294968000. *)
Theorem sleeper_wraps :
  sleeper 4294968 [] = Returned tt [704] /\ 704 < 4294968 * 1000.
Proof. split; [reflexivity | lia]. Qed.

End Delay.

(** ** The clock *)

Section Clock.

Lemma int64_fits z : - 2 ^ 63 <= z < 2 ^ 63 -> int64 z = inr z.
Proof. intros. unfold int64. by rewrite decide_True. Qed.

(** One call on a well-formed reading. *)
Lemma get_timestamp_us_returns c :
  tv_ok (wall c (reads c)) ->
  get_timestamp_us c =
  Returned (tv_sec (wall c (reads c)) * 1000000 + tv_usec (wall c (reads c)))
           (mkClock (wall c) (S (reads c))).
Proof.
  intros [Hs Hu]. unfold get_timestamp_us, gettimeofday. unfold_prog.
  rewrite !int64_fits by lia. reflexivity.
Qed.


End Clock.

(** ** The output record *)

Section Output.

(** C2, as amended.  In both builds [output_ready] appends four [printf]
    calls to the output.  Their arguments are, in order, the timestamp
    divided by 1e9, the temperature, the pressure divided by 100, the
    relative humidity, the raw gas signal and the IAQ value; every format
    has as many conversions as it is given arguments; the line ends with a
    newline.  Nothing else goes into the record: the output is the same
    whatever the accuracy tier, the raw temperature and humidity, the status
    and the three further estimates are.  [output_header] prints one line
    that names the same six columns, as many as the record has values. *)
Theorem output_ready_record debug timestamp iaq iaq_accuracy temperature
    humidity pressure raw_temperature raw_humidity gas bsec_status static_iaq
    co2_equivalent breath_voc_equivalent out :
  exists calls,
    output_ready debug timestamp iaq iaq_accuracy temperature humidity
      pressure raw_temperature raw_humidity gas bsec_status static_iaq
      co2_equivalent breath_voc_equivalent out
    = Returned tt (out ++ calls) /\
    length calls = 4%nat /\
    printed calls = six_fields timestamp iaq temperature humidity pressure gas /\
    Forall (fun c => conversions (format c) = length (args c)) calls /\
    last calls = Some (mkPrintf nl []) /\
    (forall iaq_accuracy' raw_temperature' raw_humidity' bsec_status'
            static_iaq' co2_equivalent' breath_voc_equivalent',
       output_ready debug timestamp iaq iaq_accuracy' temperature humidity
         pressure raw_temperature' raw_humidity' gas bsec_status' static_iaq'
         co2_equivalent' breath_voc_equivalent' out
       = Returned tt (out ++ calls)) /\
    exists header,
      output_header out = Returned tt (out ++ [mkPrintf (header +:+ nl) []]) /\
      columns header =
        ["Timestamp"; "Temperature"; "Pressure"; "RelativeHumidity";
         "GasRawReading"; "IAQ"]%string /\
      length (columns header) = length (printed calls).
Proof.
  destruct debug; eexists;
    (split; [unfold output_ready, printf; unfold_prog;
             rewrite <- !app_assoc; reflexivity|]);
    (split; [reflexivity|]); (split; [reflexivity|]);
    (split; [repeat constructor|]); (split; [reflexivity|]);
    (split; [intros; unfold output_ready, printf; unfold_prog;
             rewrite <- !app_assoc; reflexivity|]);
    eexists; (split; [reflexivity|]); split; reflexivity.
Qed.

(** The header names the same six columns. *)
Lemma output_header_columns out :
  exists line,
    output_header out = Returned tt (out ++ [mkPrintf (line +:+ nl) []]) /\
    columns line =
      ["Timestamp"; "Temperature"; "Pressure"; "RelativeHumidity";
       "GasRawReading"; "IAQ"]%string.
Proof. eexists. split; reflexivity. Qed.

End Output.

(** ** The state file *)

Section Store.

Implicit Types (d : disk) (b buf : list Byte.byte).

(** Saving into a directory that lets the file be written: the file holds
    the first [n] bytes of the buffer and nothing else. *)
Lemma state_save_ok b n d :
  can_write d = true ->
  (n <= length b)%nat ->
  state_save b n d =
  Returned tt (mkDisk (Some (take n b)) true (can_read d)
                      (disk_stderr d ++ [mkPrintf ("Saved sensor state" +:+ nl) []])).
Proof.
  intros Hw Hn. unfold state_save, fopen, fwrite, fclose, fprintf_stderr.
  unfold_prog. rewrite Hw. cbn. by rewrite decide_True.
Qed.

(** Saving when the file cannot be opened: the message is printed and
    then [fclose] is handed the null stream. *)
Lemma state_save_unwritable b n d :
  can_write d = false -> state_save b n d = Undefined NullStream.
Proof.
  intros Hw. unfold state_save, fopen, fclose, fprintf_stderr.
  unfold_prog. by rewrite Hw.
Qed.

(** Loading from a directory that lets the file be appended to and read. *)
Lemma state_load_ok buf n_buffer d :
  can_write d = true ->
  can_read d = true ->
  (n_buffer <= length buf)%nat ->
  let content := default [] (state_file d) in
  let got := take n_buffer content in
  state_load buf n_buffer d =
  Returned (length got, got ++ drop (length got) buf)
    (mkDisk (Some content) true true
       (disk_stderr d ++
        [mkPrintf ("Loaded sensor state (%d bytes)" +:+ nl)
                  [AInt (Z.of_nat (length got))]])).
Proof.
  intros Hw Hr Hn content got.
  unfold state_load, fopen, fread, fclose, fprintf_stderr.
  unfold_prog. rewrite Hw. cbn. rewrite Hr. cbn.
  fold content. fold got.
  rewrite decide_True; [reflexivity|].
  subst got. rewrite length_take. lia.
Qed.

(** Loading when the first [fopen], in append mode, fails. *)
Lemma state_load_unwritable buf n_buffer d :
  can_write d = false -> state_load buf n_buffer d = Undefined NullStream.
Proof.
  intros Hw. unfold state_load, fopen, fclose. unfold_prog. by rewrite Hw.
Qed.

(** Loading when the second [fopen], in read mode, fails: [size] is set to
    zero and then [fclose] is handed the null stream. *)
Lemma state_load_unreadable buf n_buffer d :
  can_read d = false -> state_load buf n_buffer d = Undefined NullStream.
Proof.
  intros Hr. unfold state_load, fopen, fclose. unfold_prog.
  destruct (can_write d); cbn; [by rewrite Hr | reflexivity].
Qed.

(** No state file yet, in a usable directory: nothing is loaded. *)
Lemma state_load_absent buf n_buffer d :
  state_file d = None ->
  can_write d = true ->
  can_read d = true ->
  exists d', state_load buf n_buffer d = Returned (0%nat, buf) d'.
Proof.
  intros Hf Hw Hr. unfold state_load, fopen, fread, fclose, fprintf_stderr.
  unfold_prog. rewrite Hw. cbn. rewrite Hr, Hf. cbn.
  rewrite take_nil. cbn. rewrite decide_True by lia. cbn. eauto.
Qed.

(** C1.  In a directory where the state file can be written and read,
    [state_save] of the [N] bytes of [b] followed by [state_load] into a
    buffer of [n_buffer >= N] bytes returns [N], and the first [N] bytes of
    the buffer are [b]; the file holds exactly [b]. *)
Theorem state_round_trip b buf n_buffer d :
  can_write d = true ->
  can_read d = true ->
  (length b <= n_buffer)%nat ->
  (n_buffer <= length buf)%nat ->
  exists buf' d',
    save_then_load b (length b) buf n_buffer d
      = Returned (length b, buf') d' /\
    take (length b) buf' = b /\
    length buf' = length buf /\
    state_file d' = Some b.
Proof.
  intros Hw Hr HN Hroom. unfold save_then_load, bind at 1.
  rewrite state_save_ok by done.
  rewrite state_load_ok by done. cbn [state_file default from_option id].
  rewrite firstn_all, take_ge by lia.
  eexists _, _. split; [reflexivity|].
  split; [by rewrite take_app_length|].
  split; [|reflexivity].
  rewrite length_app, length_drop. lia.
Qed.

(** C4.  The state file exists but cannot be opened for reading: [state_load]
    sets [size] to zero and then calls [fclose] on the null stream, which is
    undefined; it does not return zero to its caller. *)
Theorem state_load_unreadable_crashes :
  state_load (replicate 4 Byte.x00) 4 unreadable_disk = Undefined NullStream /\
  returns (state_load (replicate 4 Byte.x00) 4 unreadable_disk) = false.
Proof. split; reflexivity. Qed.

(** C5.  The state file cannot be opened for writing: [state_save] prints
    its message and then calls [fclose] on the null stream, which is
    undefined; it does not return to its caller. *)
Theorem state_save_unwritable_crashes :
  state_save [Byte.x01; Byte.x02] 2 readonly_disk = Undefined NullStream /\
  returns (state_save [Byte.x01; Byte.x02] 2 readonly_disk) = false.
Proof. split; reflexivity. Qed.

End Store.

(** ** The claims at concrete inputs *)

(** Sixteen payload bytes: the copy leaves [reg]. *)
Lemma bus_write_copy_bound_witness :
  (16 <= length (replicate 16 Byte.x01))%nat /\
  bus_write Byte.x77 Byte.x74 (replicate 16 Byte.x01) 16 good_bus
  = Undefined (StoreOutOfBounds 16).
Proof.
  split; [simpl; lia|].
  apply (bus_write_copy_bound Byte.x77 Byte.x74 (replicate 16 Byte.x01) 16 good_bus);
    simpl; lia.
Defined.

(** Two payload bytes written to register [0x74]. *)
Lemma bus_write_frame_witness :
  bus_write Byte.x77 Byte.x74 [Byte.x01; Byte.x02] 2 good_bus
    = Returned 0 (after_write [Byte.x74; Byte.x01; Byte.x02] 3 good_bus) /\
  bus_log (after_write [Byte.x74; Byte.x01; Byte.x02] 3 good_bus)
    = bus_log good_bus ++ [EvWrite [Byte.x74; Byte.x01; Byte.x02] 3].
Proof.
  split; [reflexivity|].
  apply (bus_write_frame Byte.x77 Byte.x74 [Byte.x01; Byte.x02] 2 good_bus 0).
  reflexivity.
Defined.

(** C3, as stated, fails: the adapter takes one byte of a frame of three,
    and [bus_write] ends the process instead of returning a result. *)
Lemma short_transfer_ends_process :
  sys_write [Byte.x74; Byte.x01; Byte.x02] short_bus
    = Returned 1 (after_write [Byte.x74; Byte.x01; Byte.x02] 1 short_bus) /\
  bus_write Byte.x77 Byte.x74 [Byte.x01; Byte.x02] 2 short_bus
    = Exited 1 (after_perror "user_i2c_write"
                  (after_write [Byte.x74; Byte.x01; Byte.x02] 1 short_bus)) /\
  ~ reports_transfer_incomplete
      (bus_write Byte.x77 Byte.x74 [Byte.x01; Byte.x02] 2 short_bus).
Proof.
  split; [reflexivity|]. split; [reflexivity|].
  intros (rslt & b' & H & _). discriminate.
Qed.

Lemma bus_write_short_transfer_witness :
  ((2 <= 15)%nat /\ (2 <= length [Byte.x01; Byte.x02])%nat /\ 1 < Z.of_nat 2 + 1) /\
  bus_write Byte.x77 Byte.x74 [Byte.x01; Byte.x02] 2 short_bus
  = Exited 1 (after_perror "user_i2c_write"
                (after_write [Byte.x74; Byte.x01; Byte.x02] 1 short_bus)).
Proof.
  split; [simpl; lia|].
  apply (bus_write_short_transfer Byte.x77 Byte.x74 [Byte.x01; Byte.x02] 2
           short_bus 1 (after_write [Byte.x74; Byte.x01; Byte.x02] 1 short_bus));
    [simpl; lia | simpl; lia | reflexivity | lia].
Defined.

(** Four bytes asked for, three delivered: the end-to-end scenario of the
    specification. *)
Lemma bus_read_result_witness :
  (4 <= length (replicate 4 Byte.x00))%nat /\
  exists rslt buf' b' wrote got data,
    wrote = 1 /\
    (got, data) = (3, [Byte.x12; Byte.x34; Byte.x56]) /\
    bus_read Byte.x77 Byte.x1d (replicate 4 Byte.x00) 4
             (mkBus [Some 1%nat] [Some [Byte.x12; Byte.x34; Byte.x56]] [] [])
      = Returned (rslt, buf') b' /\
    tx_script b' = [] /\
    rx_script b' = [] /\
    bus_log b' = [] ++ [EvWrite [Byte.x1d] wrote; EvRead 4 got data] /\
    buf' = data ++ drop (length data) (replicate 4 Byte.x00) /\
    (rslt <> 0 <-> wrote <> 1 \/ got <> 4) /\
    (rslt = 0 -> length data = 4%nat /\ take 4 buf' = data).
Proof.
  split; [simpl; lia|].
  apply (bus_read_result Byte.x77 Byte.x1d (replicate 4 Byte.x00) 4
           (mkBus [Some 1%nat] [Some [Byte.x12; Byte.x34; Byte.x56]] [] [])).
  simpl. lia.
Defined.



(** C2, as stated, fails: two results that differ in nothing but the
    accuracy tier (0 and 3) give the same record. *)
Lemma output_ready_drops_accuracy :
  output_ready false 1000000000 1103626240 0 1101791232 1109393408
               1204151936 1101791232 1109393408 1195593728 0
               1103626240 1140457472 1056964608 []
  = output_ready false 1000000000 1103626240 3 1101791232 1109393408
                 1204151936 1101791232 1109393408 1195593728 0
                 1103626240 1140457472 1056964608 [] /\
  ~ record_tells_accuracy.
Proof.
  split; [reflexivity|]. intros H.
  specialize (H false 1000000000 1103626240 0 3 1101791232 1109393408
                1204151936 1101791232 1109393408 1195593728 0
                1103626240 1140457472 1056964608 [] eq_refl).
  discriminate.
Qed.

(** Three bytes saved, then loaded into a buffer of eight. *)
Lemma state_round_trip_witness :
  (can_write fresh_disk = true /\ can_read fresh_disk = true /\
   (length [Byte.x0a; Byte.x0b; Byte.x0c] <= 8)%nat /\
   (8 <= length (replicate 8 Byte.x00))%nat) /\
  exists buf' d',
    save_then_load [Byte.x0a; Byte.x0b; Byte.x0c] 3 (replicate 8 Byte.x00) 8
                   fresh_disk
      = Returned (3%nat, buf') d' /\
    take 3 buf' = [Byte.x0a; Byte.x0b; Byte.x0c] /\
    length buf' = 8%nat /\
    state_file d' = Some [Byte.x0a; Byte.x0b; Byte.x0c].
Proof.
  split; [simpl; repeat split; lia|].
  apply (state_round_trip [Byte.x0a; Byte.x0b; Byte.x0c]
           (replicate 8 Byte.x00) 8 fresh_disk);
    [reflexivity | reflexivity | simpl; lia | simpl; lia].
Defined.

(** * Further properties *)

(** ** More on the bus *)

Section BusMore.

Implicit Types (b : bus) (p buf d : list Byte.byte).

(** X1.  A call of [bus_write] within its bounds returns exactly when the
    adapter takes the whole frame; it then returns 0, has consumed one
    answer of the adapter, logged the one frame and printed nothing. *)
Theorem bus_write_accepts dev_addr reg_addr p data_len b :
  (data_len <= 15)%nat ->
  (data_len <= length p)%nat ->
  (returns (bus_write dev_addr reg_addr p data_len b) = true
   <-> exists k rest, tx_script b = Some k :: rest /\ (data_len + 1 <= k)%nat) /\
  (forall k rest,
     tx_script b = Some k :: rest ->
     (data_len + 1 <= k)%nat ->
     bus_write dev_addr reg_addr p data_len b =
     Returned 0
       (mkBus rest (rx_script b)
          (bus_log b ++
           [EvWrite (reg_addr :: take data_len p) (Z.of_nat data_len + 1)])
          (bus_stderr b))).
Proof.
  intros H15 Hp. rewrite bus_write_unfold by done. unfold_prog.
  rewrite sys_write_answer.
  assert (length (reg_addr :: take data_len p) = S data_len) as ->
    by (simpl; rewrite length_take; lia).
  unfold after_write.
  destruct (tx_script b) as [|[k|] rest]; cbn [tail].
  - rewrite decide_True by lia. split.
    + split; [discriminate | intros (? & ? & ? & _); discriminate].
    + intros ? ? ?. discriminate.
  - destruct (decide (data_len + 1 <= k)%nat) as [Hk|Hk].
    + rewrite decide_False by lia. split.
      * split; [eauto | reflexivity].
      * intros k' rest' [= <- <-] _.
        replace (Z.of_nat (k `min` S data_len)) with (Z.of_nat data_len + 1) by lia.
        reflexivity.
    + rewrite decide_True by lia. split.
      * split; [discriminate | intros (? & ? & [= <- <-] & ?); lia].
      * intros k' rest' [= <- <-] ?. lia.
  - rewrite decide_True by lia. split.
    + split; [discriminate | intros (? & ? & ? & _); discriminate].
    + intros ? ? ?. discriminate.
Qed.

(** X2.  [bus_read] never touches the caller's buffer past [data_len]:
    whatever the device answers, the buffer keeps its length and the bytes
    from index [data_len] on. *)
Theorem bus_read_keeps_tail dev_addr reg_addr buf data_len b rslt buf' b' :
  (data_len <= length buf)%nat ->
  bus_read dev_addr reg_addr buf data_len b = Returned (rslt, buf') b' ->
  length buf' = length buf /\ drop data_len buf' = drop data_len buf.
Proof.
  intros Hroom Hret.
  destruct (bus_read_run dev_addr reg_addr buf data_len b Hroom)
    as (wrote & got & data & _ & Hg & Hrun).
  rewrite Hrun in Hret. injection Hret as _ <- _.
  assert (length data <= data_len)%nat as Hd.
  { destruct (rx_script b) as [|[d|] ?]; injection Hg as _ ->;
      [simpl; lia | rewrite length_take; lia | simpl; lia]. }
  split.
  - rewrite length_app, length_drop. lia.
  - rewrite drop_app_ge by done. rewrite drop_drop. f_equal. lia.
Qed.

(** X3.  A short read is not discarded: when the device delivers fewer
    than [data_len] bytes, [bus_read] returns 1, its last diagnostic is
    [user_i2c_read_data], and the bytes delivered have replaced the start of
    the caller's buffer. *)
Theorem bus_read_short_read dev_addr reg_addr buf data_len b d rest :
  (data_len <= length buf)%nat ->
  rx_script b = Some d :: rest ->
  (length d < data_len)%nat ->
  exists b',
    bus_read dev_addr reg_addr buf data_len b
      = Returned (1, d ++ drop (length d) buf) b' /\
    last (bus_stderr b') = Some "user_i2c_read_data"%string /\
    rx_script b' = rest.
Proof.
  intros Hroom Hrx Hshort.
  destruct (bus_read_run dev_addr reg_addr buf data_len b Hroom)
    as (wrote & got & data & _ & Hg & Hrun).
  rewrite Hrx in Hg. rewrite take_ge in Hg by lia. injection Hg as -> ->.
  rewrite Hrun, Hrx. rewrite !(decide_True (P := Z.of_nat (length d) <> Z.of_nat data_len)) by lia.
  eexists. split; [reflexivity|]. cbn [bus_stderr rx_script tail].
  split; [|reflexivity]. by rewrite !app_assoc, last_snoc.
Qed.

(** X4.  [bus_read] reports every failure: its result is 0 or 1, it is 0
    exactly when nothing was printed on the error stream, and each call uses
    up one answer to a [write] and one answer to a [read]. *)
Theorem bus_read_diagnostics dev_addr reg_addr buf data_len b rslt buf' b' :
  (data_len <= length buf)%nat ->
  bus_read dev_addr reg_addr buf data_len b = Returned (rslt, buf') b' ->
  (rslt = 0 \/ rslt = 1) /\
  (rslt = 0 <-> bus_stderr b' = bus_stderr b) /\
  tx_script b' = tail (tx_script b) /\
  rx_script b' = tail (rx_script b).
Proof.
  intros Hroom Hret.
  destruct (bus_read_run dev_addr reg_addr buf data_len b Hroom)
    as (wrote & got & data & _ & _ & Hrun).
  rewrite Hrun in Hret. injection Hret as <- _ <-.
  cbn [bus_stderr tx_script rx_script].
  assert (forall extra : list string,
            extra <> [] -> bus_stderr b ++ extra <> bus_stderr b) as Hgrow.
  { intros extra Hne Heq. apply Hne.
    apply (app_inv_head (bus_stderr b)). by rewrite app_nil_r. }
  destruct (decide (got <> Z.of_nat data_len)), (decide (wrote <> 1));
    (split; [lia|]); (split; [|done]); cbn [app]; rewrite ?app_nil_r;
    (split; [intros ?; try done; lia|]); intros Heq; try reflexivity;
    exfalso; revert Heq; by apply Hgrow.
Qed.

(** X5.  With a device in working order (the adapter takes the register
    byte, the device delivers at least [data_len] bytes) [bus_read] returns 0
    with the first [data_len] bytes delivered at the start of the buffer and
    the rest of the buffer as it was; nothing is printed. *)
Theorem bus_read_success dev_addr reg_addr buf data_len b k txs d rxs :
  (data_len <= length buf)%nat ->
  tx_script b = Some k :: txs ->
  (1 <= k)%nat ->
  rx_script b = Some d :: rxs ->
  (data_len <= length d)%nat ->
  bus_read dev_addr reg_addr buf data_len b =
  Returned (0, take data_len d ++ drop data_len buf)
    (mkBus txs rxs
       (bus_log b ++ [EvWrite [reg_addr] 1;
                      EvRead data_len (Z.of_nat data_len) (take data_len d)])
       (bus_stderr b)).
Proof.
  intros Hroom Htx Hk Hrx Hd.
  destruct (bus_read_run dev_addr reg_addr buf data_len b Hroom)
    as (wrote & got & data & Hw & Hg & Hrun).
  rewrite Htx in Hw. rewrite Hrx in Hg. injection Hg as -> ->.
  assert (length (take data_len d) = data_len) as Hlen
    by (rewrite length_take; lia).
  rewrite Hrun, Htx, Hrx, Hlen. replace wrote with 1 by lia.
  rewrite !(decide_False (P := 1 <> 1)) by lia.
  rewrite !(decide_False (P := Z.of_nat data_len <> Z.of_nat data_len)) by lia.
  cbn [tail app]. by rewrite app_nil_r.
Qed.

End BusMore.

(** ** More on the delay and the clock *)

Section TimeMore.

(** X6.  Over all of [uint32_t]: [sleeper] always returns, having asked
    [usleep] for one delay; the delay is never more than [t_ms * 1000]
    microseconds, and it is [t_ms * 1000] exactly for [t_ms] up to
    4294967. *)
Theorem sleeper_exact_upto t_ms asked :
  0 <= t_ms < 2 ^ 32 ->
  exists usec,
    sleeper t_ms asked = Returned tt (asked ++ [usec]) /\
    0 <= usec <= t_ms * 1000 /\
    (usec = t_ms * 1000 <-> t_ms <= 4294967).
Proof.
  intros Hr. change (2 ^ 32) with 4294967296 in *.
  exists ((t_ms * 1000) mod 4294967296). split; [reflexivity|].
  pose proof (Z.mod_pos_bound (t_ms * 1000) 4294967296 eq_refl) as Hm.
  pose proof (Z.mod_le (t_ms * 1000) 4294967296 ltac:(lia) eq_refl) as Hle.
  split; [lia|]. split.
  - intros Heq. rewrite Heq in Hm. lia.
  - intros Hsmall. apply Z.mod_small. lia.
Qed.

(** X7.  Past 4294967 ms the delay handed to [usleep] is too short by a
    whole number of wrap-arounds: between 1 and 999 times 2^32
    microseconds are missing. *)
Theorem sleeper_shortfall t_ms asked :
  4294967 < t_ms < 2 ^ 32 ->
  exists usec q,
    sleeper t_ms asked = Returned tt (asked ++ [usec]) /\
    0 <= usec < 2 ^ 32 /\
    1 <= q <= 999 /\
    t_ms * 1000 = usec + q * 2 ^ 32.
Proof.
  intros Hr. change (2 ^ 32) with 4294967296 in *.
  exists ((t_ms * 1000) mod 4294967296), ((t_ms * 1000) / 4294967296).
  split; [reflexivity|].
  pose proof (Z.mod_pos_bound (t_ms * 1000) 4294967296 eq_refl) as Hm.
  pose proof (Z.div_mod (t_ms * 1000) 4294967296 ltac:(discriminate)) as Hdm.
  split; [done|]. split; [|lia].
  split.
  - apply Z.div_le_lower_bound; lia.
  - assert ((t_ms * 1000) / 4294967296 < 1000); [|lia].
    apply Z.div_lt_upper_bound; lia.
Qed.

(** X8.  On well-formed readings the timestamps of two calls in a row
    compare exactly as the readings do: the second is not smaller exactly
    when the clock was not set back, and the two are equal exactly when the
    readings are. *)
Theorem get_timestamp_us_order c :
  tv_ok (wall c (reads c)) ->
  tv_ok (wall c (S (reads c))) ->
  exists t1 t2,
    get_timestamp_us c = Returned t1 (mkClock (wall c) (S (reads c))) /\
    get_timestamp_us (mkClock (wall c) (S (reads c)))
      = Returned t2 (mkClock (wall c) (S (S (reads c)))) /\
    (t1 <= t2 <-> tv_le (wall c (reads c)) (wall c (S (reads c)))) /\
    (t1 = t2 <->
     tv_sec (wall c (reads c)) = tv_sec (wall c (S (reads c))) /\
     tv_usec (wall c (reads c)) = tv_usec (wall c (S (reads c)))).
Proof.
  intros Ha Hb.
  exists (tv_sec (wall c (reads c)) * 1000000 + tv_usec (wall c (reads c))),
         (tv_sec (wall c (S (reads c))) * 1000000
          + tv_usec (wall c (S (reads c)))).
  split; [by apply get_timestamp_us_returns|].
  split; [by apply (get_timestamp_us_returns (mkClock (wall c) (S (reads c))))|].
  destruct Ha as [? ?], Hb as [? ?]. unfold tv_le. lia.
Qed.

(** X9.  The timestamp keeps the whole reading: its quotient by 1000000
    is [tv_sec], its remainder is [tv_usec], and the call has used up one
    reading of the clock. *)
Theorem get_timestamp_us_decode c :
  tv_ok (wall c (reads c)) ->
  exists t c',
    get_timestamp_us c = Returned t c' /\
    t / 1000000 = tv_sec (wall c (reads c)) /\
    t mod 1000000 = tv_usec (wall c (reads c)) /\
    reads c' = S (reads c) /\
    wall c' = wall c.
Proof.
  intros Ha. eexists _, _.
  split; [by apply get_timestamp_us_returns|].
  destruct Ha as [? ?].
  split; [|split; [|done]].
  - symmetry. apply (Z.div_unique _ _ _ (tv_usec (wall c (reads c)))); lia.
  - symmetry. apply (Z.mod_unique _ _ (tv_sec (wall c (reads c)))); lia.
Qed.

(** X10.  For a reading not before the epoch, [get_timestamp_us] is
    defined exactly when [tv_sec * 1000000 + tv_usec] fits 63 bits;
    otherwise the arithmetic in [long long] overflows. *)
Theorem get_timestamp_us_defined_iff c :
  tv_normal (wall c (reads c)) ->
  (returns (get_timestamp_us c) = true
   <-> tv_sec (wall c (reads c)) * 1000000 + tv_usec (wall c (reads c)) < 2 ^ 63) /\
  (2 ^ 63 <= tv_sec (wall c (reads c)) * 1000000 + tv_usec (wall c (reads c)) ->
   get_timestamp_us c = Undefined SignedOverflow).
Proof.
  intros [Hs Hu].
  assert (Hover : forall z, 2 ^ 63 <= z -> int64 z = inl SignedOverflow).
  { intros z Hz. unfold int64. rewrite decide_False; [reflexivity | lia]. }
  unfold get_timestamp_us, gettimeofday. unfold_prog.
  destruct (decide (tv_sec (wall c (reads c)) * 1000000
                    + tv_usec (wall c (reads c)) < 2 ^ 63)) as [Hfit|Hbig].
  - rewrite !int64_fits by lia. cbn. split; [done | lia].
  - destruct (decide (tv_sec (wall c (reads c)) * 1000000 < 2 ^ 63)) as [H1|H1].
    + rewrite int64_fits by lia. rewrite Hover by lia. cbn.
      split; [split; [discriminate | lia] | reflexivity].
    + rewrite Hover by lia. cbn.
      split; [split; [discriminate | lia] | reflexivity].
Qed.

End TimeMore.

(** ** More on the output *)

Section OutputMore.

(** X11.  In the plain build a record lines up with the header: the line
    [output_ready] prints has six columns between its [|] separators, one
    conversion in each, and the header printed by [output_header] has six
    columns as well, with no conversion in them. *)
Theorem output_columns_match_header timestamp iaq iaq_accuracy temperature
    humidity pressure raw_temperature raw_humidity gas bsec_status static_iaq
    co2_equivalent breath_voc_equivalent out :
  exists calls header,
    output_ready false timestamp iaq iaq_accuracy temperature humidity
      pressure raw_temperature raw_humidity gas bsec_status static_iaq
      co2_equivalent breath_voc_equivalent out
    = Returned tt (out ++ calls) /\
    output_header out = Returned tt (out ++ [mkPrintf header []]) /\
    length (columns (line_format calls)) = length (columns header) /\
    map conversions (columns (line_format calls)) = [1; 1; 1; 1; 1; 1]%nat /\
    map conversions (columns header) = [0; 0; 0; 0; 0; 0]%nat.
Proof.
  eexists _, _.
  split; [unfold output_ready, printf; unfold_prog;
          rewrite <- !app_assoc; reflexivity|].
  split; [reflexivity|].
  split; [reflexivity|]. split; reflexivity.
Qed.

End OutputMore.

(** ** More on the state file and the configuration *)

Section StoreMore.

Implicit Types (d : disk) (b buf : list Byte.byte).

(** X12.  A save replaces the file wholesale: whatever the file held, it
    holds the first [n] bytes of the buffer afterwards, and saving the same
    buffer again leaves the same contents. *)
Theorem state_save_overwrites b n d :
  can_write d = true ->
  (n <= length b)%nat ->
  exists d1 d2,
    state_save b n d = Returned tt d1 /\
    state_file d1 = Some (take n b) /\
    can_write d1 = true /\ can_read d1 = can_read d /\
    state_save b n d1 = Returned tt d2 /\
    state_file d2 = state_file d1.
Proof.
  intros Hw Hn. eexists _, _.
  split; [by apply state_save_ok|].
  split; [reflexivity|]. split; [reflexivity|]. split; [reflexivity|].
  split; [by apply state_save_ok|]. reflexivity.
Qed.

(** X13.  A load never gives more than [n_buffer] bytes: it returns the
    smaller of [n_buffer] and the size of the file, puts that prefix of the
    file at the start of the buffer, leaves the rest of the buffer alone
    and leaves the contents of the file as they were (a missing file counts
    as empty). *)
Theorem state_load_reads_prefix buf n_buffer d :
  can_write d = true ->
  can_read d = true ->
  (n_buffer <= length buf)%nat ->
  exists k buf' d',
    state_load buf n_buffer d = Returned (k, buf') d' /\
    k = (n_buffer `min` length (default [] (state_file d)))%nat /\
    take k buf' = take n_buffer (default [] (state_file d)) /\
    drop k buf' = drop k buf /\
    length buf' = length buf /\
    state_file d' = Some (default [] (state_file d)).
Proof.
  intros Hw Hr Hroom. eexists _, _, _.
  split; [by apply state_load_ok|].
  set (content := default [] (state_file d)).
  assert (length (take n_buffer content) <= length buf)%nat as Hk
    by (rewrite length_take; lia).
  split; [by rewrite length_take|].
  split; [by rewrite take_app_length|].
  split; [by rewrite drop_app_length|].
  split; [|reflexivity].
  rewrite length_app, length_drop. lia.
Qed.

(** X14.  Loading creates the file: with no state file in a usable
    directory [state_load] returns 0, leaves the buffer as it was, and an
    empty state file exists afterwards. *)
Theorem state_load_creates_file buf n_buffer d :
  state_file d = None ->
  can_write d = true ->
  can_read d = true ->
  exists d',
    state_load buf n_buffer d = Returned (0%nat, buf) d' /\
    state_file d' = Some [] /\
    disk_stderr d' =
      disk_stderr d ++ [mkPrintf ("Loaded sensor state (%d bytes)" +:+ nl) [AInt 0]].
Proof.
  intros Hf Hw Hr. unfold state_load, fopen, fread, fclose, fprintf_stderr.
  unfold_prog. rewrite Hw. cbn. rewrite Hr, Hf. cbn.
  rewrite take_nil. cbn. rewrite decide_True by lia. cbn.
  eexists. split; [reflexivity|]. split; reflexivity.
Qed.

(** X15.  [state_load] comes back to its caller exactly when the state
    file can be opened both for appending and for reading; in every other
    case it ends in [fclose] of the null stream. *)
Theorem state_load_returns_iff buf n_buffer d :
  (n_buffer <= length buf)%nat ->
  (returns (state_load buf n_buffer d) = true
   <-> can_write d = true /\ can_read d = true) /\
  (returns (state_load buf n_buffer d) = false ->
   state_load buf n_buffer d = Undefined NullStream).
Proof.
  intros Hroom.
  destruct (can_write d) eqn:Hw.
  - destruct (can_read d) eqn:Hr.
    + rewrite state_load_ok by done. cbn. split; [done | discriminate].
    + rewrite state_load_unreadable by done. cbn.
      split; [split; [discriminate | intros [_ ?]; discriminate] | done].
  - rewrite state_load_unwritable by done. cbn.
    split; [split; [discriminate | intros [? _]; discriminate] | done].
Qed.

(** X16.  [state_save] of bytes the buffer holds comes back to its caller
    exactly when the state file can be opened for writing; otherwise it
    ends in [fclose] of the null stream. *)
Theorem state_save_returns_iff b n d :
  (n <= length b)%nat ->
  (returns (state_save b n d) = true <-> can_write d = true) /\
  (can_write d = false -> state_save b n d = Undefined NullStream).
Proof.
  intros Hn. destruct (can_write d) eqn:Hw.
  - rewrite state_save_ok by done. cbn. split; [done | discriminate].
  - rewrite state_save_unwritable by done. cbn.
    split; [split; discriminate | done].
Qed.

(** X17.  What was loaded can be saved back: after a load into a buffer
    that takes the whole file, saving the count returned from the buffer
    returned leaves the file with the contents it had. *)
Theorem state_load_then_save buf n_buffer d content :
  state_file d = Some content ->
  can_write d = true ->
  can_read d = true ->
  (length content <= n_buffer)%nat ->
  (n_buffer <= length buf)%nat ->
  exists buf' d1 d2,
    state_load buf n_buffer d = Returned (length content, buf') d1 /\
    state_save buf' (length content) d1 = Returned tt d2 /\
    state_file d2 = Some content.
Proof.
  intros Hf Hw Hr Hfit Hroom.
  rewrite state_load_ok by done. rewrite Hf. cbn [default from_option id].
  rewrite take_ge by lia.
  eexists _, _, _. split; [reflexivity|].
  rewrite state_save_ok; [| reflexivity | rewrite length_app; lia].
  split; [reflexivity|]. cbn [state_file]. by rewrite take_app_length.
Qed.

(** X18.  [config_load] makes no check against [n_buffer]: called, as its
    contract asks, with [n_buffer] the size of the buffer, it copies the
    whole table, returns its size and leaves the rest of the buffer alone
    when the table fits, and runs past the end of the buffer when the table
    is larger. *)
Theorem config_load_unchecked {W} (cfg buf : list Byte.byte) n_buffer (w : W) :
  length buf = n_buffer ->
  ((length cfg <= n_buffer)%nat ->
   exists buf',
     config_load cfg buf n_buffer w = Returned (length cfg, buf') w /\
     take (length cfg) buf' = cfg /\
     drop (length cfg) buf' = drop (length cfg) buf /\
     length buf' = n_buffer) /\
  ((n_buffer < length cfg)%nat ->
   config_load cfg buf n_buffer w = Undefined (StoreOutOfBounds n_buffer)).
Proof.
  intros <-. unfold config_load. unfold_prog. split.
  - intros Hroom. exists (cfg ++ drop (length cfg) buf).
    rewrite decide_True by done.
    split; [reflexivity|]. split; [by rewrite take_app_length|].
    split; [by rewrite drop_app_length|].
    rewrite length_app, length_drop. lia.
  - intros Hsmall. rewrite decide_False by lia. reflexivity.
Qed.

End StoreMore.

(** ** Opening the device *)

Section DeviceMore.

(** X19.  The start of [main], [i2cOpen] then [i2cSetAddress]: it returns
    only with the descriptor stored in [g_i2cFid], open, and the address
    bound; when [open] fails the process ends with status 1 after the
    diagnostic [i2cOpen] and no address is bound; when [ioctl] fails it ends
    with status 1 after the diagnostic [i2cSetAddress]. *)
Theorem i2c_startup_outcome address d :
  (0 <= open_answer d -> 0 <= ioctl_answer d ->
   i2c_startup address d =
   Returned tt (mkDev (open_answer d) (ioctl_answer d) (open_answer d) true
                      (Some address) (dev_stderr d))) /\
  (open_answer d < 0 ->
   i2c_startup address d =
   Exited 1 (mkDev (open_answer d) (ioctl_answer d) (open_answer d) false
                   (slave d) (dev_stderr d ++ ["i2cOpen"%string]))) /\
  (0 <= open_answer d -> ioctl_answer d < 0 ->
   i2c_startup address d =
   Exited 1 (mkDev (open_answer d) (ioctl_answer d) (open_answer d) true
                   (slave d) (dev_stderr d ++ ["i2cSetAddress"%string]))).
Proof.
  unfold i2c_startup, i2cOpen, i2cSetAddress, sys_open, sys_ioctl_slave,
    dev_perror. unfold_prog.
  repeat split.
  - intros Ho Hi. rewrite decide_False by lia. cbn.
    rewrite bool_decide_true by done. rewrite decide_True by done.
    cbn. rewrite decide_False by lia. reflexivity.
  - intros Ho. rewrite decide_True by lia. cbn.
    rewrite bool_decide_false by lia. reflexivity.
  - intros Ho Hi. rewrite decide_False by lia. cbn.
    rewrite bool_decide_true by done. rewrite decide_False by lia.
    cbn. rewrite decide_True by lia. reflexivity.
Qed.

(** X20.  After [i2cClose] the descriptor in [g_i2cFid] is stale: the
    variable keeps its value, and a later [i2cSetAddress] ends the process
    with status 1 instead of binding the address. *)
Theorem i2cClose_then_set_address address d :
  fd_open d = true ->
  exists d1,
    i2cClose d = Returned tt d1 /\
    g_i2cFid d1 = g_i2cFid d /\
    fd_open d1 = false /\
    i2cSetAddress address d1 =
    Exited 1 (mkDev (open_answer d) (ioctl_answer d) (g_i2cFid d) false
                    (slave d) (dev_stderr d ++ ["i2cSetAddress"%string])).
Proof.
  intros Hopen. unfold i2cClose, i2cSetAddress, sys_close, sys_ioctl_slave,
    dev_perror. unfold_prog. rewrite Hopen. cbn.
  eexists. split; [reflexivity|]. cbn. repeat split.
Qed.

End DeviceMore.

(** ** The further properties at concrete inputs *)

Lemma bus_write_accepts_witness :
  ((2 <= 15)%nat /\ (2 <= length [Byte.x01; Byte.x02])%nat) /\
  (returns (bus_write Byte.x77 Byte.x74 [Byte.x01; Byte.x02] 2 working_bus) = true
   <-> exists k rest,
         tx_script working_bus = Some k :: rest /\ (2 + 1 <= k)%nat).
Proof.
  split; [simpl; lia|].
  apply (bus_write_accepts Byte.x77 Byte.x74 [Byte.x01; Byte.x02] 2 working_bus);
    simpl; lia.
Defined.

Lemma bus_read_keeps_tail_witness :
  (4 <= length (replicate 8 Byte.xff))%nat /\
  length [Byte.x12; Byte.x34; Byte.x56; Byte.xff;
          Byte.xff; Byte.xff; Byte.xff; Byte.xff] = length (replicate 8 Byte.xff) /\
  drop 4 [Byte.x12; Byte.x34; Byte.x56; Byte.xff;
          Byte.xff; Byte.xff; Byte.xff; Byte.xff] = drop 4 (replicate 8 Byte.xff).
Proof.
  split; [simpl; lia|].
  eapply (bus_read_keeps_tail Byte.x77 Byte.x1d (replicate 8 Byte.xff) 4 slow_bus 1);
    [simpl; lia | reflexivity].
Defined.

Lemma bus_read_short_read_witness :
  ((4 <= length (replicate 8 Byte.xff))%nat /\
   rx_script slow_bus = [Some [Byte.x12; Byte.x34; Byte.x56]] /\
   (length [Byte.x12; Byte.x34; Byte.x56] < 4)%nat) /\
  exists b',
    bus_read Byte.x77 Byte.x1d (replicate 8 Byte.xff) 4 slow_bus
      = Returned (1, [Byte.x12; Byte.x34; Byte.x56]
                     ++ drop (length [Byte.x12; Byte.x34; Byte.x56])
                             (replicate 8 Byte.xff)) b' /\
    last (bus_stderr b') = Some "user_i2c_read_data"%string /\
    rx_script b' = [].
Proof.
  split; [simpl; repeat split; lia|].
  apply (bus_read_short_read Byte.x77 Byte.x1d (replicate 8 Byte.xff) 4 slow_bus
           [Byte.x12; Byte.x34; Byte.x56] []);
    [simpl; lia | reflexivity | simpl; lia].
Defined.

Lemma bus_read_diagnostics_witness :
  (4 <= length (replicate 8 Byte.xff))%nat /\
  ((1 = 0 \/ 1 = 1) /\
   (1 = 0 <-> ["user_i2c_read_data"%string] = bus_stderr slow_bus) /\
   [] = tail (tx_script slow_bus) /\
   [] = tail (rx_script slow_bus)).
Proof.
  split; [simpl; lia|].
  eapply (bus_read_diagnostics Byte.x77 Byte.x1d (replicate 8 Byte.xff) 4
            slow_bus 1 _
            (mkBus [] [] _ ["user_i2c_read_data"%string]));
    [simpl; lia | reflexivity].
Defined.

Lemma bus_read_success_witness :
  ((4 <= length (replicate 8 Byte.xff))%nat /\ (1 <= 32)%nat /\
   (4 <= length [Byte.xa1; Byte.xa2; Byte.xa3; Byte.xa4; Byte.xa5; Byte.xa6])%nat) /\
  bus_read Byte.x77 Byte.x1d (replicate 8 Byte.xff) 4 working_bus =
  Returned (0, take 4 [Byte.xa1; Byte.xa2; Byte.xa3; Byte.xa4; Byte.xa5; Byte.xa6]
               ++ drop 4 (replicate 8 Byte.xff))
    (mkBus [] []
       (bus_log working_bus ++
        [EvWrite [Byte.x1d] 1;
         EvRead 4 (Z.of_nat 4)
           (take 4 [Byte.xa1; Byte.xa2; Byte.xa3; Byte.xa4; Byte.xa5; Byte.xa6])])
       (bus_stderr working_bus)).
Proof.
  split; [simpl; lia|].
  apply (bus_read_success Byte.x77 Byte.x1d (replicate 8 Byte.xff) 4 working_bus
           32%nat [] [Byte.xa1; Byte.xa2; Byte.xa3; Byte.xa4; Byte.xa5; Byte.xa6] []);
    [simpl; lia | reflexivity | lia | reflexivity | simpl; lia].
Defined.

Lemma sleeper_exact_upto_witness :
  0 <= 1000 < 2 ^ 32 /\
  exists usec,
    sleeper 1000 [] = Returned tt ([] ++ [usec]) /\
    0 <= usec <= 1000 * 1000 /\
    (usec = 1000 * 1000 <-> 1000 <= 4294967).
Proof.
  assert (H : 0 <= 1000 < 2 ^ 32) by (vm_compute; split; easy).
  split; [exact H|]. exact (sleeper_exact_upto 1000 [] H).
Defined.

Lemma sleeper_shortfall_witness :
  4294967 < 4294968 < 2 ^ 32 /\
  exists usec q,
    sleeper 4294968 [] = Returned tt ([] ++ [usec]) /\
    0 <= usec < 2 ^ 32 /\
    1 <= q <= 999 /\
    4294968 * 1000 = usec + q * 2 ^ 32.
Proof.
  assert (H : 4294967 < 4294968 < 2 ^ 32) by (vm_compute; split; easy).
  split; [exact H|]. exact (sleeper_shortfall 4294968 [] H).
Defined.

Lemma get_timestamp_us_order_witness :
  (tv_ok (wall ticking 0) /\ tv_ok (wall ticking 1)) /\
  exists t1 t2,
    get_timestamp_us ticking = Returned t1 (mkClock (wall ticking) 1) /\
    get_timestamp_us (mkClock (wall ticking) 1)
      = Returned t2 (mkClock (wall ticking) 2) /\
    (t1 <= t2 <-> tv_le (wall ticking 0) (wall ticking 1)) /\
    (t1 = t2 <->
     tv_sec (wall ticking 0) = tv_sec (wall ticking 1) /\
     tv_usec (wall ticking 0) = tv_usec (wall ticking 1)).
Proof.
  assert (Ha : tv_ok (wall ticking 0)) by (vm_compute; repeat split; easy).
  assert (Hb : tv_ok (wall ticking 1)) by (vm_compute; repeat split; easy).
  split; [done|].
  exact (get_timestamp_us_order ticking Ha Hb).
Defined.

Lemma get_timestamp_us_decode_witness :
  tv_ok (wall ticking 0) /\
  exists t c',
    get_timestamp_us ticking = Returned t c' /\
    t / 1000000 = tv_sec (wall ticking 0) /\
    t mod 1000000 = tv_usec (wall ticking 0) /\
    reads c' = 1%nat /\
    wall c' = wall ticking.
Proof.
  assert (Ha : tv_ok (wall ticking 0)) by (vm_compute; repeat split; easy).
  split; [done|].
  exact (get_timestamp_us_decode ticking Ha).
Defined.

Lemma get_timestamp_us_defined_iff_witness :
  tv_normal (wall (mkClock (fun _ => mkTimeval 9223372036854 775808) 0) 0) /\
  get_timestamp_us (mkClock (fun _ => mkTimeval 9223372036854 775808) 0)
  = Undefined SignedOverflow.
Proof.
  assert (Ha : tv_normal (wall (mkClock (fun _ => mkTimeval 9223372036854 775808) 0) 0))
    by (vm_compute; repeat split; easy).
  split; [done|].
  apply (get_timestamp_us_defined_iff
           (mkClock (fun _ => mkTimeval 9223372036854 775808) 0) Ha).
  vm_compute. easy.
Defined.

Lemma state_save_overwrites_witness :
  (can_write used_disk = true /\ (2 <= length [Byte.x0a; Byte.x0b])%nat) /\
  exists d1 d2,
    state_save [Byte.x0a; Byte.x0b] 2 used_disk = Returned tt d1 /\
    state_file d1 = Some (take 2 [Byte.x0a; Byte.x0b]) /\
    can_write d1 = true /\ can_read d1 = can_read used_disk /\
    state_save [Byte.x0a; Byte.x0b] 2 d1 = Returned tt d2 /\
    state_file d2 = state_file d1.
Proof.
  split; [simpl; split; [reflexivity | lia]|].
  apply (state_save_overwrites [Byte.x0a; Byte.x0b] 2 used_disk);
    [reflexivity | simpl; lia].
Defined.

(** A file of five bytes loaded into a buffer of three. *)
Lemma state_load_reads_prefix_witness :
  (can_write used_disk = true /\ can_read used_disk = true /\
   (3 <= length (replicate 3 Byte.x00))%nat) /\
  exists k buf' d',
    state_load (replicate 3 Byte.x00) 3 used_disk = Returned (k, buf') d' /\
    k = (3 `min` length (default [] (state_file used_disk)))%nat /\
    take k buf' = take 3 (default [] (state_file used_disk)) /\
    drop k buf' = drop k (replicate 3 Byte.x00) /\
    length buf' = length (replicate 3 Byte.x00) /\
    state_file d' = Some (default [] (state_file used_disk)).
Proof.
  split; [simpl; repeat split; lia|].
  apply (state_load_reads_prefix (replicate 3 Byte.x00) 3 used_disk);
    [reflexivity | reflexivity | simpl; lia].
Defined.

Lemma state_load_creates_file_witness :
  (state_file fresh_disk = None /\ can_write fresh_disk = true /\
   can_read fresh_disk = true) /\
  exists d',
    state_load (replicate 4 Byte.x00) 4 fresh_disk
      = Returned (0%nat, replicate 4 Byte.x00) d' /\
    state_file d' = Some [] /\
    disk_stderr d' =
      disk_stderr fresh_disk
      ++ [mkPrintf ("Loaded sensor state (%d bytes)" +:+ nl) [AInt 0]].
Proof.
  split; [repeat split|].
  apply (state_load_creates_file (replicate 4 Byte.x00) 4 fresh_disk);
    reflexivity.
Defined.

(** A readable state file in a directory that does not let it be written. *)
Lemma state_load_returns_iff_witness :
  (4 <= length (replicate 4 Byte.x00))%nat /\
  state_load (replicate 4 Byte.x00) 4
             (mkDisk (Some [Byte.x01; Byte.x02]) false true [])
  = Undefined NullStream.
Proof.
  split; [simpl; lia|].
  apply (state_load_returns_iff (replicate 4 Byte.x00) 4
           (mkDisk (Some [Byte.x01; Byte.x02]) false true []));
    [simpl; lia | reflexivity].
Defined.

Lemma state_save_returns_iff_witness :
  (2 <= length [Byte.x0a; Byte.x0b])%nat /\
  (returns (state_save [Byte.x0a; Byte.x0b] 2 used_disk) = true
   <-> can_write used_disk = true).
Proof.
  split; [simpl; lia|].
  apply (state_save_returns_iff [Byte.x0a; Byte.x0b] 2 used_disk).
  simpl. lia.
Defined.

Lemma state_load_then_save_witness :
  (state_file used_disk
     = Some [Byte.x01; Byte.x02; Byte.x03; Byte.x04; Byte.x05] /\
   can_write used_disk = true /\ can_read used_disk = true /\
   (length [Byte.x01; Byte.x02; Byte.x03; Byte.x04; Byte.x05] <= 8)%nat /\
   (8 <= length (replicate 8 Byte.x00))%nat) /\
  exists buf' d1 d2,
    state_load (replicate 8 Byte.x00) 8 used_disk
      = Returned (length [Byte.x01; Byte.x02; Byte.x03; Byte.x04; Byte.x05], buf') d1 /\
    state_save buf' (length [Byte.x01; Byte.x02; Byte.x03; Byte.x04; Byte.x05]) d1
      = Returned tt d2 /\
    state_file d2 = Some [Byte.x01; Byte.x02; Byte.x03; Byte.x04; Byte.x05].
Proof.
  split; [simpl; repeat split; lia|].
  apply (state_load_then_save (replicate 8 Byte.x00) 8 used_disk
           [Byte.x01; Byte.x02; Byte.x03; Byte.x04; Byte.x05]);
    [reflexivity | reflexivity | reflexivity | simpl; lia | simpl; lia].
Defined.

(** A table of three bytes and a buffer of two. *)
Lemma config_load_unchecked_witness :
  length [Byte.x00; Byte.x00] = 2%nat /\
  @config_load unit [Byte.x0a; Byte.x0b; Byte.x0c] [Byte.x00; Byte.x00] 2 tt
  = Undefined (StoreOutOfBounds 2).
Proof.
  split; [reflexivity|].
  apply (config_load_unchecked [Byte.x0a; Byte.x0b; Byte.x0c]
           [Byte.x00; Byte.x00] 2 tt);
    [reflexivity | simpl; lia].
Defined.

Lemma i2cClose_then_set_address_witness :
  fd_open (mkDev 3 0 3 true (Some 119) []) = true /\
  exists d1,
    i2cClose (mkDev 3 0 3 true (Some 119) []) = Returned tt d1 /\
    g_i2cFid d1 = 3 /\
    fd_open d1 = false /\
    i2cSetAddress 118 d1 =
    Exited 1 (mkDev 3 0 3 false (Some 119) ([] ++ ["i2cSetAddress"%string])).
Proof.
  split; [reflexivity|].
  apply (i2cClose_then_set_address 118 (mkDev 3 0 3 true (Some 119) [])).
  reflexivity.
Defined.

(** ** [main] *)

Section MainMore.

Variable L : Type.
Variable bsec_iot_init :
  cfloat -> cfloat -> write_hook L -> read_hook L -> sleep_hook L -> load_hook L
  -> load_hook L -> prog (process L) return_values_init.
Variable bsec_iot_loop :
  sleep_hook L -> prog (process L) Z -> output_hook L -> save_hook L -> Z
  -> prog (process L) unit.
Variable rate : cfloat.
Variable address : Z.
Variable config : list Byte.byte.

Let main' := main L bsec_iot_init bsec_iot_loop rate address config.
Let init' := main_init L bsec_iot_init rate config.
Let loop' := main_loop L bsec_iot_loop.

(** [main] once the device is open and bound: what it does is decided by
    the outcome of [bsec_iot_init]. *)
Lemma main_after_startup debug (w : process L) :
  0 <= open_answer (p_dev w) ->
  0 <= ioctl_answer (p_dev w) ->
  main' debug w =
  match init' (started L address w) with
  | Returned r w2 =>
      if decide (bme680_status r <> 0) then Returned (bme680_status r) w2
      else if decide (bsec_status r <> 0) then Returned (bsec_status r) w2
      else
        bind (loop' debug) (fun _ => ret 0)
          (ready debug w2)
  | Exited status w2 => Exited status w2
  | Undefined f => Undefined f
  end.
Proof.
  intros Ho Hi. subst main' init' loop'.
  unfold main, within, i2cOpen, i2cSetAddress, sys_open, sys_ioctl_slave,
    dev_perror, main_fprintf_stderr. unfold_prog.
  cbn [p_dev set_stderr set_dev open_answer ioctl_answer g_i2cFid fd_open
       slave dev_stderr].
  rewrite (decide_False (P := open_answer (p_dev w) < 0)) by lia.
  cbn [p_dev set_stderr set_dev open_answer ioctl_answer g_i2cFid fd_open
       slave dev_stderr].
  rewrite bool_decide_true by done.
  rewrite (decide_True (P := 0 <= ioctl_answer (p_dev w))) by done.
  cbn [p_dev set_stderr set_dev open_answer ioctl_answer g_i2cFid fd_open
       slave dev_stderr].
  rewrite (decide_False (P := ioctl_answer (p_dev w) < 0)) by lia.
  cbn [p_dev set_stderr set_dev open_answer ioctl_answer g_i2cFid fd_open
       slave dev_stderr p_bus p_disk p_clock p_slept p_stdout p_stderr p_lib].
  rewrite <- app_assoc.
  change (main_init L bsec_iot_init rate config (started L address w))
    with (bsec_iot_init rate (FConst "0.0f")
            (fun dev_addr reg_addr reg_data_ptr data_len =>
               within L p_bus (set_bus L)
                 (bus_write dev_addr reg_addr reg_data_ptr data_len))
            (fun dev_addr reg_addr reg_data_ptr data_len =>
               within L p_bus (set_bus L)
                 (bus_read dev_addr reg_addr reg_data_ptr data_len))
            (fun t_ms => within L p_slept (set_slept L) (sleeper t_ms))
            (fun state_buffer n_buffer =>
               within L p_disk (set_disk L) (state_load state_buffer n_buffer))
            (fun config_buffer n_buffer =>
               config_load config config_buffer n_buffer)
            (started L address w)).
  unfold started, within, set_stderr, set_dev.
  cbn [p_dev set_stderr set_dev open_answer ioctl_answer g_i2cFid fd_open
       slave dev_stderr p_bus p_disk p_clock p_slept p_stdout p_stderr p_lib app].
  match goal with
  | |- match ?x with _ => _ end = match ?y with _ => _ end =>
      change y with x; destruct x as [r w2|status w2|f]; [|reflexivity..]
  end.
  destruct (decide (bme680_status r <> 0)); [reflexivity|].
  destruct (decide (bsec_status r <> 0)); [reflexivity|].
  destruct debug; reflexivity.
Qed.
(** X21.  Without the device [main] does nothing: when [open] or the
    [ioctl] that binds the address fails, the process ends with status 1
    before [bsec_iot_init] is called; the library state, the bus, the state
    file and the standard output are untouched, and of its own messages
    [main] has printed only the first. *)
Theorem main_needs_device debug (w : process L) :
  open_answer (p_dev w) < 0 \/ ioctl_answer (p_dev w) < 0 ->
  exists w',
    main' debug w = Exited 1 w' /\
    p_lib w' = p_lib w /\ p_bus w' = p_bus w /\ p_disk w' = p_disk w /\
    p_stdout w' = p_stdout w /\
    p_stderr w' =
      p_stderr w ++ [mkPrintf ("Starting sensor reader..." +:+ nl) []] /\
    dev_stderr (p_dev w') =
      dev_stderr (p_dev w)
      ++ [if decide (open_answer (p_dev w) < 0)
          then "i2cOpen"%string else "i2cSetAddress"%string].
Proof.
  intros Hfail. subst main' init' loop'.
  unfold main, within, i2cOpen, i2cSetAddress, sys_open, sys_ioctl_slave,
    dev_perror, main_fprintf_stderr. unfold_prog.
  cbn [p_dev set_stderr set_dev open_answer ioctl_answer g_i2cFid fd_open
       slave dev_stderr].
  destruct (decide (open_answer (p_dev w) < 0)) as [Ho|Ho].
  - cbn [p_dev set_stderr set_dev open_answer ioctl_answer g_i2cFid fd_open
         slave dev_stderr].
    eexists. split; [reflexivity|]. repeat split.
  - cbn [p_dev set_stderr set_dev open_answer ioctl_answer g_i2cFid fd_open
         slave dev_stderr].
    rewrite bool_decide_true by lia.
    rewrite (decide_False (P := 0 <= ioctl_answer (p_dev w))) by lia.
    cbn [p_dev set_stderr set_dev open_answer ioctl_answer g_i2cFid fd_open
         slave dev_stderr].
    rewrite (decide_True (P := ioctl_answer (p_dev w) < 0)) by lia.
    cbn [p_dev set_stderr set_dev open_answer ioctl_answer g_i2cFid fd_open
         slave dev_stderr].
    eexists. split; [reflexivity|]. repeat split.
Qed.

(** X22.  When [bsec_iot_init] reports a failure, [main] returns at once
    with that status, the status of the sensor driver taking precedence
    over the status of the library; the process is left as
    [bsec_iot_init] left it: no header, no further message, no loop. *)
Theorem main_init_failure debug (w : process L) r w2 :
  0 <= open_answer (p_dev w) ->
  0 <= ioctl_answer (p_dev w) ->
  init' (started L address w) = Returned r w2 ->
  bme680_status r <> 0 \/ bsec_status r <> 0 ->
  main' debug w =
  Returned (if decide (bme680_status r <> 0) then bme680_status r
            else bsec_status r) w2.
Proof.
  intros Ho Hi Hinit Hst. rewrite main_after_startup by done. rewrite Hinit.
  destruct (decide (bme680_status r <> 0)); [reflexivity|].
  rewrite decide_True by tauto. reflexivity.
Qed.

(** X23.  When [bsec_iot_init] reports success, [main] prints its third
    message, prints the header (in the plain build only: the header is one
    more line on the standard output, the [DEBUG] build prints none) and
    hands over to [bsec_iot_loop]; if the loop comes back, [main] returns
    0. *)
Theorem main_enters_loop debug (w : process L) r w2 :
  0 <= open_answer (p_dev w) ->
  0 <= ioctl_answer (p_dev w) ->
  init' (started L address w) = Returned r w2 ->
  bme680_status r = 0 ->
  bsec_status r = 0 ->
  main' debug w = bind (loop' debug) (fun _ => ret 0) (ready debug w2) /\
  p_stderr (ready debug w2) =
    p_stderr w2 ++ [mkPrintf ("BSEC initialized..." +:+ nl) []] /\
  p_stdout (ready debug w2) =
    p_stdout w2 ++
    (if debug then []
     else [mkPrintf
             ("Timestamp|Temperature|Pressure|RelativeHumidity|GasRawReading|IAQ"
              +:+ nl) []]).
Proof.
  intros Ho Hi Hinit Hb Hs. rewrite main_after_startup by done. rewrite Hinit.
  rewrite !decide_False by lia.
  split; [reflexivity|].
  destruct debug; cbn; rewrite ?app_nil_r; split; reflexivity.
Qed.

End MainMore.

(** ** [main] at concrete inputs *)

Lemma main_needs_device_witness :
  (open_answer (p_dev (idle_process (mkDev (-1) 0 0 false None []) good_bus)) < 0
   \/ ioctl_answer (p_dev (idle_process (mkDev (-1) 0 0 false None []) good_bus)) < 0) /\
  exists w',
    main unit init_stub loop_stub (FConst "0.33333f") 119 [] false
         (idle_process (mkDev (-1) 0 0 false None []) good_bus)
      = Exited 1 w' /\
    p_stdout w' = [] /\
    dev_stderr (p_dev w') = ["i2cOpen"%string].
Proof.
  assert (H : open_answer (p_dev (idle_process (mkDev (-1) 0 0 false None []) good_bus)) < 0
              \/ ioctl_answer (p_dev (idle_process (mkDev (-1) 0 0 false None []) good_bus)) < 0)
    by (left; reflexivity).
  split; [exact H|].
  destruct (main_needs_device unit init_stub loop_stub (FConst "0.33333f") 119 []
              false _ H) as (w' & Hm & _ & _ & _ & Hout & _ & Herr).
  exists w'. split; [exact Hm|]. split; [exact Hout | exact Herr].
Defined.

(** The sensor does not answer the stub's read: [main] returns 1. *)
Lemma main_init_failure_witness :
  (0 <= open_answer (p_dev (idle_process (mkDev 3 0 0 false None []) short_bus)) /\
   0 <= ioctl_answer (p_dev (idle_process (mkDev 3 0 0 false None []) short_bus))) /\
  exists w2,
    main unit init_stub loop_stub (FConst "0.33333f") 119 [] false
         (idle_process (mkDev 3 0 0 false None []) short_bus)
      = Returned 1 w2 /\
    p_stdout w2 = [].
Proof.
  split; [split; vm_compute; easy|].
  eexists. split.
  - apply (main_init_failure unit init_stub loop_stub (FConst "0.33333f") 119 []
             false (idle_process (mkDev 3 0 0 false None []) short_bus)
             (mkInit 1 0));
      [vm_compute; easy | vm_compute; easy | reflexivity | left; discriminate].
  - reflexivity.
Defined.

(** The sensor answers: the header is printed and the loop runs. *)
Lemma main_enters_loop_witness :
  (0 <= open_answer (p_dev (idle_process (mkDev 3 0 0 false None []) slow_bus)) /\
   0 <= ioctl_answer (p_dev (idle_process (mkDev 3 0 0 false None []) slow_bus))) /\
  exists w2,
    main unit init_stub loop_stub (FConst "0.33333f") 119 [] false
         (idle_process (mkDev 3 0 0 false None []) slow_bus)
      = bind (main_loop unit loop_stub false) (fun _ => ret 0) (ready false w2) /\
    p_stdout (ready false w2) =
      [mkPrintf
         ("Timestamp|Temperature|Pressure|RelativeHumidity|GasRawReading|IAQ"
          +:+ nl) []].
Proof.
  split; [split; vm_compute; easy|].
  eexists. split.
  - eapply (main_enters_loop unit init_stub loop_stub (FConst "0.33333f") 119 []
              false (idle_process (mkDev 3 0 0 false None []) slow_bus)
              (mkInit 0 0));
      [vm_compute; easy | vm_compute; easy | reflexivity | reflexivity | reflexivity].
  - reflexivity.
Defined.
